(** * MONAI [engines/workflow.py]: the Workflow base class

    A shallow embedding of [monai.engines.workflow.Workflow] (constructor,
    the built-in [post_epoch_process] callback, [_run] and [_iteration]) and
    of the parts of its collaborators it drives: the engine's event table,
    metric attachment and the epoch / iteration loop.

    Conventions.
    - Python objects that travel through the engine state are values of
      [PyVal]; constructor arguments that may be containers of metrics or of
      handlers are values of [PyObj].
    - A Python [float] is idealised as a rational ([Q]): the code only
      orders metric values, it does no arithmetic on them.
    - A Python [dict] is an association list in insertion order.
    - A raised exception is a value of [PyError]; [assert] statements are
      executed (the interpreter is not run with [-O]). *)

From Stdlib Require Import ZArith QArith List String Bool Lia.
Import ListNotations.

Local Open Scope string_scope.
Local Open Scope list_scope.
Local Open Scope Z_scope.

(** ** Python values *)

#[local] Set Warnings "-register-all".

Inductive PyVal : Type :=
| VNone
| VBool (b : bool)
| VInt (n : Z)
| VFloat (x : Q)
| VStr (s : string)
| VDevice (name : string)              (* a [torch.device] *)
| VDataLoader (batches : list PyVal).  (* a [torch.utils.data.DataLoader] *)

Inductive PyError : Type :=
| AssertionError (msg : string)
| IndexError
| KeyError (key : string)
| TypeError
| NotImplementedError
| RuntimeError (msg : string).

(** [Result A] is either a raised exception or a value. *)
Definition Result (A : Type) : Type := (PyError + A)%type.

Definition ret {A} (a : A) : Result A := inr a.
Definition raise {A} (e : PyError) : Result A := inl e.
Definition bind {A B} (m : Result A) (k : A -> Result B) : Result B :=
  match m with
  | inl e => inl e
  | inr a => k a
  end.

Declare Scope py_scope.
Delimit Scope py_scope with py.
Notation "x <- m ;; k" := (bind m (fun x => k))
  (at level 61, m at next level, right associativity) : py_scope.
Notation "m ;;; k" := (bind m (fun _ => k))
  (at level 61, right associativity) : py_scope.

(** [assert cond, msg] *)
Definition py_assert (cond : bool) (msg : string) : Result unit :=
  if cond then ret tt else raise (AssertionError msg).

(** [isinstance(v, int)]; [bool] is a subclass of [int]. *)
Definition isinstance_int (v : PyVal) : bool :=
  match v with
  | VInt _ | VBool _ => true
  | _ => false
  end.

(** [isinstance(v, torch.device)] *)
Definition isinstance_device (v : PyVal) : bool :=
  match v with
  | VDevice _ => true
  | _ => false
  end.

(** [isinstance(v, torch.utils.data.DataLoader)] *)
Definition isinstance_DataLoader (v : PyVal) : bool :=
  match v with
  | VDataLoader _ => true
  | _ => false
  end.

(** The integer an [int] instance denotes ([True] is [1]). *)
Definition int_value (v : PyVal) : Z :=
  match v with
  | VInt n => n
  | VBool b => Z.b2z b
  | _ => 0
  end.

(** Truth value of an object, as tested by [if v:]. *)
Definition truthy (v : PyVal) : bool :=
  match v with
  | VNone => false
  | VBool b => b
  | VInt n => negb (n =? 0)
  | VFloat x => negb (Qeq_bool x 0)
  | VStr s => negb (String.eqb s "")
  | VDevice _ => true
  | VDataLoader bs => negb (Nat.eqb (List.length bs) 0)
  end.

(** [len(v)] on a value. *)
Definition val_len (v : PyVal) : Result Z :=
  match v with
  | VStr s => ret (Z.of_nat (String.length s))
  | VDataLoader bs => ret (Z.of_nat (List.length bs))
  | _ => raise TypeError
  end.

(** The number a numeric value denotes. *)
Definition as_number (v : PyVal) : option Q :=
  match v with
  | VBool b => Some (inject_Z (Z.b2z b))
  | VInt n => Some (inject_Z n)
  | VFloat x => Some x
  | _ => None
  end.

(** [Qlt] as a boolean. *)
Definition Qlt_bool (x y : Q) : bool := negb (Qle_bool y x).

(** [a > b]: numbers compare by value, strings lexicographically, any other
    pair of operands raises [TypeError]. *)
Definition py_gt (a b : PyVal) : Result bool :=
  match as_number a, as_number b with
  | Some x, Some y => ret (Qlt_bool y x)
  | _, _ =>
      match a, b with
      | VStr s, VStr t => ret (String.ltb t s)
      | _, _ => raise TypeError
      end
  end.

(** ** Dictionaries (insertion ordered) *)

Section Dict.
Context {V : Type}.

(** [d.get(k)] *)
Fixpoint dict_get (k : string) (d : list (string * V)) : option V :=
  match d with
  | [] => None
  | (k', v) :: d' => if String.eqb k k' then Some v else dict_get k d'
  end.

(** [d[k] = v]: an existing key keeps its position, a new key goes last. *)
Fixpoint dict_set (k : string) (v : V) (d : list (string * V))
  : list (string * V) :=
  match d with
  | [] => [(k, v)]
  | (k', v') :: d' =>
      if String.eqb k k' then (k, v) :: d' else (k', v') :: dict_set k v d'
  end.

(** [d.update(other)] *)
Definition dict_update (d other : list (string * V)) : list (string * V) :=
  fold_left (fun acc kv => dict_set (fst kv) (snd kv) acc) other d.

(** [list(d.keys())] *)
Definition dict_keys (d : list (string * V)) : list string := map fst d.

(** A Python dict holds each key once. *)
Definition dict_wf (d : list (string * V)) : Prop := NoDup (dict_keys d).
End Dict.

(** [l[0]] *)
Definition list_first {A} (l : list A) : Result A :=
  match l with
  | [] => raise IndexError
  | a :: _ => ret a
  end.

(** ** The engine state *)

(** The attributes given to [State(...)] by the constructor. *)
Record State : Type := mkState {
  seed : Z;
  iteration : Z;
  epoch : Z;
  max_epochs : Z;
  epoch_length : Z;
  output : PyVal;
  batch : PyVal;
  metrics : list (string * PyVal);
  dataloader : PyVal;
  device : PyVal;
  amp : PyVal;
  key_metric_name : option string;
  best_metric : PyVal;
  best_metric_epoch : Z
}.

Definition set_iteration (n : Z) (s : State) : State :=
  mkState (seed s) n (epoch s) (max_epochs s) (epoch_length s) (output s)
    (batch s) (metrics s) (dataloader s) (device s) (amp s)
    (key_metric_name s) (best_metric s) (best_metric_epoch s).

Definition set_epoch (n : Z) (s : State) : State :=
  mkState (seed s) (iteration s) n (max_epochs s) (epoch_length s) (output s)
    (batch s) (metrics s) (dataloader s) (device s) (amp s)
    (key_metric_name s) (best_metric s) (best_metric_epoch s).

Definition set_epoch_length (n : Z) (s : State) : State :=
  mkState (seed s) (iteration s) (epoch s) (max_epochs s) n (output s)
    (batch s) (metrics s) (dataloader s) (device s) (amp s)
    (key_metric_name s) (best_metric s) (best_metric_epoch s).

Definition set_output (v : PyVal) (s : State) : State :=
  mkState (seed s) (iteration s) (epoch s) (max_epochs s) (epoch_length s) v
    (batch s) (metrics s) (dataloader s) (device s) (amp s)
    (key_metric_name s) (best_metric s) (best_metric_epoch s).

Definition set_batch (v : PyVal) (s : State) : State :=
  mkState (seed s) (iteration s) (epoch s) (max_epochs s) (epoch_length s)
    (output s) v (metrics s) (dataloader s) (device s) (amp s)
    (key_metric_name s) (best_metric s) (best_metric_epoch s).

Definition set_metrics (m : list (string * PyVal)) (s : State) : State :=
  mkState (seed s) (iteration s) (epoch s) (max_epochs s) (epoch_length s)
    (output s) (batch s) m (dataloader s) (device s) (amp s)
    (key_metric_name s) (best_metric s) (best_metric_epoch s).

Definition set_amp (v : PyVal) (s : State) : State :=
  mkState (seed s) (iteration s) (epoch s) (max_epochs s) (epoch_length s)
    (output s) (batch s) (metrics s) (dataloader s) (device s) v
    (key_metric_name s) (best_metric s) (best_metric_epoch s).

Definition set_key_metric_name (k : option string) (s : State) : State :=
  mkState (seed s) (iteration s) (epoch s) (max_epochs s) (epoch_length s)
    (output s) (batch s) (metrics s) (dataloader s) (device s) (amp s)
    k (best_metric s) (best_metric_epoch s).

Definition set_best_metric (v : PyVal) (s : State) : State :=
  mkState (seed s) (iteration s) (epoch s) (max_epochs s) (epoch_length s)
    (output s) (batch s) (metrics s) (dataloader s) (device s) (amp s)
    (key_metric_name s) v (best_metric_epoch s).

Definition set_best_metric_epoch (e : Z) (s : State) : State :=
  mkState (seed s) (iteration s) (epoch s) (max_epochs s) (epoch_length s)
    (output s) (batch s) (metrics s) (dataloader s) (device s) (amp s)
    (key_metric_name s) (best_metric s) e.

(** ** Events, metrics, handlers *)

Inductive Events : Type :=
| STARTED
| EPOCH_STARTED
| ITERATION_STARTED
| ITERATION_COMPLETED
| EPOCH_COMPLETED
| COMPLETED
| EXCEPTION_RAISED.

Definition Events_eqb (a b : Events) : bool :=
  match a, b with
  | STARTED, STARTED
  | EPOCH_STARTED, EPOCH_STARTED
  | ITERATION_STARTED, ITERATION_STARTED
  | ITERATION_COMPLETED, ITERATION_COMPLETED
  | EPOCH_COMPLETED, EPOCH_COMPLETED
  | COMPLETED, COMPLETED
  | EXCEPTION_RAISED, EXCEPTION_RAISED => true
  | _, _ => false
  end.

(** Modelled from the spec: a metric object, which belongs to the metric
    library and is known at its interface only.  It is fed the output of
    every completed iteration ([update]) and reduces what it was fed to a
    value ([compute]).  [metric_id] is the identity of the object: what it
    has accumulated lives outside the engine state, under that identity. *)
Record Metric : Type := mkMetric {
  metric_id : nat;
  compute : list PyVal -> PyVal
}.

(** A callback a handler registers: it reads and mutates the engine state,
    or raises. *)
Definition HandlerFn : Type := State -> Result State.

(** Modelled from the spec: a handler object, supplied by the caller and
    known at its interface only.  [attach(engine)] registers these
    callbacks, in this order. *)
Record Handler : Type := mkHandler {
  registrations : list (Events * HandlerFn)
}.

(** What the event table of an engine can hold. *)
Inductive Callback : Type :=
| metric_iteration_completed (m : Metric)
| metric_completed (m : Metric) (name : string)
| post_epoch_process_cb
| handler_cb (f : HandlerFn).

(** Objects passed as [key_metric], [additional_metrics] or [handlers]. *)
Inductive PyObj : Type :=
| OVal (v : PyVal)
| OMetric (m : Metric)
| OHandler (h : Handler)
| ODict (items : list (string * Metric))
| OList (items : list Handler)
| OTuple (items : list Handler).

Definition is_None (o : PyObj) : bool :=
  match o with
  | OVal VNone => true
  | _ => false
  end.

(** [isinstance(o, dict)] *)
Definition isinstance_dict (o : PyObj) : bool :=
  match o with
  | ODict _ => true
  | _ => false
  end.

(** [isinstance(o, (list, tuple))] *)
Definition isinstance_list_or_tuple (o : PyObj) : bool :=
  match o with
  | OList _ | OTuple _ => true
  | _ => false
  end.

(** [len(o)] *)
Definition py_len (o : PyObj) : Result Z :=
  match o with
  | OVal v => val_len v
  | ODict items => ret (Z.of_nat (List.length items))
  | OList items | OTuple items => ret (Z.of_nat (List.length items))
  | OMetric _ | OHandler _ => raise TypeError
  end.

(** The entries of a dict object, the elements of a list or tuple. *)
Definition dict_items (o : PyObj) : list (string * Metric) :=
  match o with
  | ODict items => items
  | _ => []
  end.

Definition elements (o : PyObj) : list Handler :=
  match o with
  | OList items | OTuple items => items
  | _ => []
  end.

(** ** The engine *)

(** The per-iteration operation [_iteration(engine, batchdata)]: given the
    engine state and a batch it returns the output of the iteration,
    possibly after mutating the state, or raises. *)
Definition Process : Type := State -> PyVal -> Result (State * PyVal).

(** Modelled from the spec: the engine object of the engine library, made
    of the operation it was created with, its state, and an event table
    that keeps the callbacks in registration order. *)
Record Engine : Type := mkEngine {
  process : Process;
  state : State;
  event_handlers : list (Events * Callback)
}.

Definition with_state (s : State) (e : Engine) : Engine :=
  mkEngine (process e) s (event_handlers e).

(** The callbacks registered for one event, first registered first. *)
Definition handlers_for (ev : Events) (table : list (Events * Callback))
  : list Callback :=
  map snd (filter (fun p => Events_eqb (fst p) ev) table).

(** Modelled from the spec: the engine's [on] / [add_event_handler], which
    belongs to the engine library and is not part of the sources.  It
    appends the callback to the ordered list of its event kind; there is no
    de-duplication. *)
Definition Engine_on (ev : Events) (cb : Callback) (e : Engine) : Engine :=
  mkEngine (process e) (state e) (event_handlers e ++ [(ev, cb)]).

(** Modelled from the spec: whether the per-iteration [update] of this
    metric object is already in the table. *)
Definition has_update (m : Metric) (table : list (Events * Callback)) : bool :=
  existsb
    (fun cb => match cb with
               | metric_iteration_completed m' =>
                   Nat.eqb (metric_id m') (metric_id m)
               | _ => false
               end)
    (handlers_for ITERATION_COMPLETED table).

(** Modelled from the spec: [metric.attach(engine, name)], which belongs to
    the metric library and is not part of the sources.  The reduction into
    [state.metrics[name]] is registered on [EPOCH_COMPLETED]; the feeding of
    the iteration output is registered on [ITERATION_COMPLETED], once per
    metric object, so that the object is updated once per iteration. *)
Definition Metric_attach (m : Metric) (e : Engine) (name : string) : Engine :=
  let e := Engine_on EPOCH_COMPLETED (metric_completed m name) e in
  if has_update m (event_handlers e) then e
  else Engine_on ITERATION_COMPLETED (metric_iteration_completed m) e.

(** Modelled from the spec: [handler.attach(engine)], supplied by the
    handler and not part of the sources.  It registers the callbacks of the
    handler, in their order. *)
Definition Handler_attach (h : Handler) (e : Engine) : Engine :=
  fold_left (fun e r => Engine_on (fst r) (handler_cb (snd r)) e)
    (registrations h) e.

(** ** The world a run acts on *)

(** What [print] writes. *)
Inductive Line : Type :=
| Text (s : string)
| GotNewBestMetric (name : string) (value : PyVal).

(** [wstate] is [engine.state]; [accumulated] holds, per metric object, the
    outputs it has been fed; [stdout] is what was printed; [fired] logs each
    event fired, with the engine state at that moment. *)
Record World : Type := mkWorld {
  wstate : State;
  accumulated : list (nat * list PyVal);
  stdout : list Line;
  fired : list (Events * State)
}.

Definition put_state (s : State) (w : World) : World :=
  mkWorld s (accumulated w) (stdout w) (fired w).

Definition print (l : Line) (w : World) : World :=
  mkWorld (wstate w) (accumulated w) (stdout w ++ [l]) (fired w).

Definition log_fired (ev : Events) (w : World) : World :=
  mkWorld (wstate w) (accumulated w) (stdout w) (fired w ++ [(ev, wstate w)]).

Fixpoint acc_get (id : nat) (a : list (nat * list PyVal)) : list PyVal :=
  match a with
  | [] => []
  | (id', l) :: a' => if Nat.eqb id id' then l else acc_get id a'
  end.

Fixpoint acc_push (id : nat) (v : PyVal) (a : list (nat * list PyVal))
  : list (nat * list PyVal) :=
  match a with
  | [] => [(id, [v])]
  | (id', l) :: a' =>
      if Nat.eqb id id' then (id', l ++ [v]) :: a'
      else (id', l) :: acc_push id v a'
  end.

Definition feed (id : nat) (v : PyVal) (w : World) : World :=
  mkWorld (wstate w) (acc_push id v (accumulated w)) (stdout w) (fired w).

(** How a step of a run ends: normally, or with an exception in flight.
    Either way the world reached so far is kept. *)
Inductive Outcome : Type :=
| Normal (w : World)
| Raised (e : PyError) (w : World).

Definition and_then (o : Outcome) (k : World -> Outcome) : Outcome :=
  match o with
  | Normal w => k w
  | Raised e w => Raised e w
  end.

Definition final (o : Outcome) : World :=
  match o with
  | Normal w => w
  | Raised _ w => w
  end.

(** ** [Workflow]: the built-in callback *)

(** [post_epoch_process(engine)], defined inside [Workflow.__init__]. *)
Definition post_epoch_process (w : World) : Outcome :=
  let s := wstate w in
  match key_metric_name s with
  | None => Normal w
  | Some name =>
      match dict_get name (metrics s) with
      | None => Raised (KeyError name) w
      | Some current_val_metric =>
          match py_gt current_val_metric (best_metric s) with
          | inl e => Raised e w
          | inr false => Normal w
          | inr true =>
              let w := print (GotNewBestMetric name current_val_metric) w in
              let w := put_state
                         (set_best_metric current_val_metric (wstate w)) w in
              let w := put_state
                         (set_best_metric_epoch (epoch (wstate w)) (wstate w))
                         w in
              Normal w
          end
      end
  end.

(** Modelled from the spec: the callbacks a metric registers ([update] on
    the iteration output, [compute] into [state.metrics[name]]); they belong
    to the metric library and are not part of the sources. *)
Definition Metric_iteration_completed (m : Metric) (w : World) : Outcome :=
  Normal (feed (metric_id m) (output (wstate w)) w).

(** Modelled from the spec: see [Metric_iteration_completed]. *)
Definition Metric_completed (m : Metric) (name : string) (w : World)
  : Outcome :=
  let result := compute m (acc_get (metric_id m) (accumulated w)) in
  Normal
    (put_state
       (set_metrics (dict_set name result (metrics (wstate w))) (wstate w)) w).

(** Modelled from the spec: the engine invoking one registered callback. *)
Definition call (cb : Callback) (w : World) : Outcome :=
  match cb with
  | metric_iteration_completed m => Metric_iteration_completed m w
  | metric_completed m name => Metric_completed m name w
  | post_epoch_process_cb => post_epoch_process w
  | handler_cb f =>
      match f (wstate w) with
      | inl e => Raised e w
      | inr s => Normal (put_state s w)
      end
  end.

(** Modelled from the spec: callbacks run one after the other, up to the
    first that raises. *)
Fixpoint call_all (cbs : list Callback) (w : World) : Outcome :=
  match cbs with
  | [] => Normal w
  | cb :: cbs' => and_then (call cb w) (call_all cbs')
  end.

(** Modelled from the spec: the engine's event dispatch, which belongs to
    the engine library and is not part of the sources.  Firing an event
    invokes every callback registered for its kind, synchronously and in
    registration order, up to the first failure. *)
Definition fire_event (e : Engine) (ev : Events) (w : World) : Outcome :=
  call_all (handlers_for ev (event_handlers e)) (log_fired ev w).

(** ** [Workflow] *)

Record Workflow : Type := mkWorkflow {
  engine : Engine;
  data_loader : PyVal;
  prepare_batch : PyVal -> PyVal
}.

Definition amp_notice : Line :=
  Text "Will add AMP support when PyTorch v1.6 released.".

(** The state the constructor gives the engine. *)
Definition initial_state (device max_epochs amp : PyVal) : State :=
  {| seed := 0;
     iteration := 0;
     epoch := 0;
     max_epochs := int_value max_epochs;
     epoch_length := -1;
     output := VNone;
     batch := VNone;
     metrics := [];
     dataloader := VNone;
     device := device;
     amp := amp;
     key_metric_name := None;
     best_metric := VInt (-1);
     best_metric_epoch := -1 |}.

(** The block under
    [if additional_metrics is not None and len(additional_metrics) > 0:]. *)
Definition merge_additional (metrics : list (string * Metric))
  (additional_metrics : PyObj) : Result (list (string * Metric)) :=
  (if negb (is_None additional_metrics) then
     n <- py_len additional_metrics ;;
     if 0 <? n then
       py_assert (isinstance_dict additional_metrics)
         "additional_metrics must be a dict object." ;;;
       ret (dict_update metrics (dict_items additional_metrics))
     else ret metrics
   else ret metrics)%py.

(** The block under [if key_metric is not None:].  ([metrics] is the
    [key_metric] dict itself, which [update] changes in place; the caller's
    view of its own dict is not modelled.) *)
Definition attach_metrics (key_metric additional_metrics : PyObj)
  (e : Engine) : Result Engine :=
  (py_assert (isinstance_dict key_metric)
     "key_metric must be a dict object." ;;;
   name <- list_first (dict_keys (dict_items key_metric)) ;;
   let e := with_state (set_key_metric_name (Some name) (state e)) e in
   let metrics := dict_items key_metric in
   metrics <- merge_additional metrics additional_metrics ;;
   let e :=
     fold_left (fun e item => Metric_attach (snd item) e (fst item))
       metrics e in
   ret (Engine_on EPOCH_COMPLETED post_epoch_process_cb e))%py.

(** The block under [if handlers is not None and len(handlers) > 0:]. *)
Definition attach_handlers (handlers : PyObj) (e : Engine) : Result Engine :=
  (if negb (is_None handlers) then
     n <- py_len handlers ;;
     if 0 <? n then
       py_assert (isinstance_list_or_tuple handlers)
         "handlers must be a chain." ;;;
       ret (fold_left (fun e handler => Handler_attach handler e)
              (elements handlers) e)
     else ret e
   else ret e)%py.

(** [Workflow.__init__].  [_iteration] is the method the concrete subclass
    supplies.  The first component of the result is what the constructor
    printed, the second is the object built or the exception raised. *)
Definition __init__ (_iteration : Process)
  (device max_epochs amp data_loader : PyVal)
  (prepare_batch : PyVal -> PyVal)
  (key_metric additional_metrics handlers : PyObj)
  : list Line * Result Workflow :=
  ((if truthy amp then [amp_notice] else []),
   (py_assert (isinstance_device device)
      "must provide PyTorch device information." ;;;
    py_assert (isinstance_int max_epochs) "must set max epoch number." ;;;
    py_assert (isinstance_DataLoader data_loader)
      "data_loader must be PyTorch DataLoader." ;;;
    let e :=
      mkEngine _iteration (initial_state device max_epochs amp) [] in
    e <- (if negb (is_None key_metric)
          then attach_metrics key_metric additional_metrics e
          else ret e) ;;
    e <- attach_handlers handlers e ;;
    ret (mkWorkflow e data_loader prepare_batch))%py).

(** [Workflow._iteration] of the base class. *)
Definition _iteration : Process :=
  fun _ _ => raise NotImplementedError.

(** ** The run *)

(** Modelled from the spec: the batches a data source yields in one pass. *)
Definition batches_of (data : PyVal) : list PyVal :=
  match data with
  | VDataLoader bs => bs
  | _ => []
  end.

(** Modelled from the spec: one iteration of the engine's loop.  The batch
    becomes current, [ITERATION_STARTED] fires, the operation runs and its
    result becomes the output, [ITERATION_COMPLETED] fires. *)
Definition run_iteration (e : Engine) (b : PyVal) (w : World) : Outcome :=
  let w := put_state (set_batch b (wstate w)) w in
  and_then (fire_event e ITERATION_STARTED w) (fun w =>
  match process e (wstate w) b with
  | inl err => Raised err w
  | inr (s, out) =>
      fire_event e ITERATION_COMPLETED (put_state (set_output out s) w)
  end).

(** Modelled from the spec: the batches of one epoch, in order. *)
Fixpoint run_iterations (e : Engine) (bs : list PyVal) (w : World)
  : Outcome :=
  match bs with
  | [] => Normal w
  | b :: bs' => and_then (run_iteration e b w) (run_iterations e bs')
  end.

(** Modelled from the spec: epoch number [k] of the engine's loop.
    [EPOCH_STARTED] fires, at most [epoch_length] batches of the data source
    are processed, [EPOCH_COMPLETED] fires. *)
Definition run_epoch (e : Engine) (data : PyVal) (k : Z) (w : World)
  : Outcome :=
  let w := put_state (set_epoch k (wstate w)) w in
  and_then (fire_event e EPOCH_STARTED w) (fun w =>
  and_then
    (run_iterations e
       (firstn (Z.to_nat (epoch_length (wstate w))) (batches_of data)) w)
    (fire_event e EPOCH_COMPLETED)).

(** Modelled from the spec: the epochs [k], [k+1], ..., [n] of them. *)
Fixpoint run_epochs (e : Engine) (data : PyVal) (n : nat) (k : Z) (w : World)
  : Outcome :=
  match n with
  | O => Normal w
  | S n' =>
      and_then (run_epoch e data k w) (run_epochs e data n' (k + 1))
  end.

(** Modelled from the spec: a failure fires [EXCEPTION_RAISED] once and
    then propagates. *)
Definition handle_exception (e : Engine) (o : Outcome) : Outcome :=
  match o with
  | Normal w => Normal w
  | Raised err w =>
      match fire_event e EXCEPTION_RAISED w with
      | Normal w' => Raised err w'
      | Raised err' w' => Raised err' w'
      end
  end.

(** Modelled from the spec: the engine's [run(data, epoch_length)], which
    belongs to the engine library and is not part of the sources.  The epoch
    length the caller passes is recorded in the state; then [STARTED] fires,
    the epochs [1..max_epochs] run, and [COMPLETED] fires. *)
Definition Engine_run (e : Engine) (data : PyVal) (epoch_length : Z)
  (w : World) : Outcome :=
  let w := put_state (set_epoch_length epoch_length (wstate w)) w in
  handle_exception e
    (and_then (fire_event e STARTED w) (fun w =>
     and_then (run_epochs e data (Z.to_nat (max_epochs (wstate w))) 1 w)
       (fire_event e COMPLETED))).

(** [Workflow._run] *)
Definition _run (self : Workflow) (w : World) : Outcome :=
  let w := put_state (set_iteration 0 (wstate w)) w in
  match val_len (data_loader self) with
  | inl err => Raised err w
  | inr n => Engine_run (engine self) (data_loader self) n w
  end.

(** The world in which a freshly built workflow starts. *)
Definition fresh (self : Workflow) : World :=
  mkWorld (state (engine self)) [] [] [].

(** ** Definitions used to state the properties *)

(** The table entries one handler contributes. *)
Definition handler_entries (h : Handler) : list (Events * Callback) :=
  map (fun r => (fst r, handler_cb (snd r))) (registrations h).

(** The reduction callbacks of a metric set, in the order of the set. *)
Definition reductions (ms : list (string * Metric)) : list Callback :=
  map (fun item => metric_completed (snd item) (fst item)) ms.

(** The metric set the constructor attaches. *)
Definition working_metrics (key_metric additional_metrics : PyObj)
  : list (string * Metric) :=
  dict_update (dict_items key_metric) (dict_items additional_metrics).

(** The three leading assertions of the constructor hold. *)
Definition base_ok (device max_epochs data_loader : PyVal) : bool :=
  isinstance_device device && isinstance_int max_epochs
  && isinstance_DataLoader data_loader.

(** An optional, sized argument passes its guard: it is [None], or it has a
    length and, when that is positive, the expected type. *)
Definition sized_ok (expected : PyObj -> bool) (o : PyObj) : bool :=
  is_None o
  || match py_len o with
     | inr n => negb (0 <? n) || expected o
     | inl _ => false
     end.

Definition additional_ok : PyObj -> bool := sized_ok isinstance_dict.
Definition handlers_ok : PyObj -> bool := sized_ok isinstance_list_or_tuple.

(** The engine the metric block yields from engine [e] when [name] is the
    first key of [key_metric]. *)
Definition with_metrics (name : string) (ms : list (string * Metric))
  (e : Engine) : Engine :=
  Engine_on EPOCH_COMPLETED post_epoch_process_cb
    (fold_left (fun e item => Metric_attach (snd item) e (fst item)) ms
       (with_state (set_key_metric_name (Some name) (state e)) e)).

(** The metric arguments pass: no key metric, or a non-empty dict together
    with acceptable additional metrics. *)
Definition metrics_ok (key_metric additional_metrics : PyObj) : bool :=
  is_None key_metric
  || match key_metric with
     | ODict (_ :: _) => additional_ok additional_metrics
     | _ => false
     end.

Definition init_ok (device max_epochs data_loader : PyVal)
  (key_metric additional_metrics handlers : PyObj) : bool :=
  base_ok device max_epochs data_loader
  && metrics_ok key_metric additional_metrics
  && handlers_ok handlers.

(** The first key of a dict object. *)
Definition first_key (o : PyObj) : string :=
  match dict_items o with
  | (name, _) :: _ => name
  | [] => ""
  end.

(** The workflow a successful construction yields. *)
Definition built (it : Process) (device max_epochs amp data_loader : PyVal)
  (pb : PyVal -> PyVal) (key_metric additional_metrics handlers : PyObj)
  : Workflow :=
  let e0 := mkEngine it (initial_state device max_epochs amp) [] in
  let e1 :=
    if is_None key_metric then e0
    else with_metrics (first_key key_metric)
           (working_metrics key_metric additional_metrics) e0 in
  mkWorkflow
    (fold_left (fun e handler => Handler_attach handler e)
       (elements handlers) e1)
    data_loader pb.

(** Concrete arguments used in the examples below. *)
Definition cpu : PyVal := VDevice "cpu".
Definition three_batches : PyVal := VDataLoader [VInt 10; VInt 20; VInt 30].
Definition identity_batch : PyVal -> PyVal := fun b => b.
Definition counting_step : Process :=
  fun s b => ret (set_iteration (iteration s + 1) s, b).
Definition mean_dice : Metric :=
  mkMetric 0 (fun outs => VInt (Z.of_nat (List.length outs))).
Definition accuracy : Metric := mkMetric 1 (fun _ => VFloat (1 # 2)).
Definition other_accuracy : Metric := mkMetric 2 (fun _ => VFloat (3 # 4)).
Definition stats_handler : Handler :=
  mkHandler [(EPOCH_COMPLETED, fun s => ret s); (STARTED, fun s => ret s)].
Definition timer_handler : Handler :=
  mkHandler [(EPOCH_COMPLETED, fun s => ret (set_output (VStr "t") s))].

(** The metric values after the reductions of [ms] ran on the values [d],
    the metric objects having accumulated [acc]. *)
Definition reduce_all (ms : list (string * Metric))
  (acc : list (nat * list PyVal)) (d : list (string * PyVal))
  : list (string * PyVal) :=
  fold_left
    (fun d item =>
       dict_set (fst item)
         (compute (snd item) (acc_get (metric_id (snd item)) acc)) d)
    ms d.

(** A state as it stands after the reductions of an epoch. *)
Definition state_after_epoch (k : Z) (value best : PyVal) (best_epoch : Z)
  : State :=
  {| seed := 0; iteration := 3 * k; epoch := k; max_epochs := 5;
     epoch_length := 3; output := VNone; batch := VNone;
     metrics := [("mean_dice", value)]; dataloader := VNone;
     device := cpu; amp := VBool false;
     key_metric_name := Some "mean_dice";
     best_metric := best; best_metric_epoch := best_epoch |}.

(** [w'] was reached from [w]: its log continues the log of [w]. *)
Definition extends (w w' : World) : Prop :=
  exists rest, fired w' = fired w ++ rest.

(** Changing the engine state of an engine. *)
Definition map_state (g : State -> State) (e : Engine) : Engine :=
  with_state (g (state e)) e.

(** The same workflow, world and outcome with another [amp] stored. *)
Definition amp_workflow (a : PyVal) (self : Workflow) : Workflow :=
  mkWorkflow (map_state (set_amp a) (engine self)) (data_loader self)
    (prepare_batch self).

Definition amp_world (a : PyVal) (w : World) : World :=
  mkWorld (set_amp a (wstate w)) (accumulated w) (stdout w)
    (map (fun p => (fst p, set_amp a (snd p))) (fired w)).

Definition amp_outcome (a : PyVal) (o : Outcome) : Outcome :=
  match o with
  | Normal w => Normal (amp_world a w)
  | Raised err w => Raised err (amp_world a w)
  end.

(** A handler callback, an iteration operation or an engine that makes no
    use of [state.amp]: overriding the flag beforehand or afterwards comes
    to the same. *)
Definition amp_blind_fn (f : HandlerFn) : Prop :=
  forall a s,
    f (set_amp a s)
    = match f s with
      | inl err => inl err
      | inr s' => inr (set_amp a s')
      end.

Definition amp_blind_process (p : Process) : Prop :=
  forall a s b,
    p (set_amp a s) b
    = match p s b with
      | inl err => inl err
      | inr (s', out) => inr (set_amp a s', out)
      end.

Definition amp_blind (e : Engine) : Prop :=
  amp_blind_process (process e)
  /\ forall ev f, In (ev, handler_cb f) (event_handlers e) -> amp_blind_fn f.

Definition result_map {A B} (f : A -> B) (r : Result A) : Result B :=
  match r with
  | inl err => inl err
  | inr a => inr (f a)
  end.

(** A workflow whose handler and iteration operation make no use of
    [state.amp]. *)
Definition plain_workflow : Workflow :=
  built counting_step cpu (VInt 2) (VBool false) three_batches
    identity_batch (ODict [("mean_dice", mean_dice)]) (OVal VNone)
    (OList [timer_handler]).

(** ** Definitions used to state further properties *)

(** The exception, if any, that the guard
    [if o is not None and len(o) > 0: assert isinstance(o, ...), msg]
    raises: the error of [len] on an unsized object, the assertion on a
    non-empty object of another type. *)
Definition guard_failure (expected : PyObj -> bool) (msg : string)
  (o : PyObj) : option PyError :=
  if is_None o then None
  else match py_len o with
       | inl err => Some err
       | inr n =>
           if (0 <? n) && negb (expected o) then Some (AssertionError msg)
           else None
       end.

(** The exception, if any, that the metric block raises. *)
Definition metrics_failure (key_metric additional_metrics : PyObj)
  : option PyError :=
  if is_None key_metric then None
  else if negb (isinstance_dict key_metric)
  then Some (AssertionError "key_metric must be a dict object.")
  else match dict_items key_metric with
       | [] => Some IndexError
       | _ :: _ =>
           guard_failure isinstance_dict
             "additional_metrics must be a dict object." additional_metrics
       end.

(** The first check of the constructor that fails, in program order. *)
Definition first_failure (device max_epochs data_loader : PyVal)
  (key_metric additional_metrics handlers : PyObj) : option PyError :=
  if negb (isinstance_device device)
  then Some (AssertionError "must provide PyTorch device information.")
  else if negb (isinstance_int max_epochs)
  then Some (AssertionError "must set max epoch number.")
  else if negb (isinstance_DataLoader data_loader)
  then Some (AssertionError "data_loader must be PyTorch DataLoader.")
  else match metrics_failure key_metric additional_metrics with
       | Some err => Some err
       | None =>
           guard_failure isinstance_list_or_tuple
             "handlers must be a chain." handlers
       end.

(** Table entries that hold the best-metric callback, and table entries a
    metric contributes. *)
Definition is_tracker_entry (p : Events * Callback) : bool :=
  match snd p with
  | post_epoch_process_cb => true
  | _ => false
  end.

Definition is_metric_entry (p : Events * Callback) : bool :=
  match p with
  | (EPOCH_COMPLETED, metric_completed _ _) => true
  | (ITERATION_COMPLETED, metric_iteration_completed _) => true
  | _ => false
  end.

(** A handler callback or an iteration operation that leaves
    [state.best_metric] as it found it. *)
Definition keeps_best_metric (f : HandlerFn) : Prop :=
  forall s s', f s = inr s' -> best_metric s' = best_metric s.

Definition process_keeps_best_metric (p : Process) : Prop :=
  forall s b s' out, p s b = inr (s', out) -> best_metric s' = best_metric s.

(** A handler callback or an iteration operation that leaves the metric
    values and the best-metric bookkeeping as it found them. *)
Definition keeps_bookkeeping (f : HandlerFn) : Prop :=
  forall s s',
    f s = inr s' ->
    best_metric s' = best_metric s
    /\ best_metric_epoch s' = best_metric_epoch s
    /\ metrics s' = metrics s.

Definition process_keeps_bookkeeping (p : Process) : Prop :=
  forall s b s' out,
    p s b = inr (s', out) ->
    best_metric s' = best_metric s
    /\ best_metric_epoch s' = best_metric_epoch s
    /\ metrics s' = metrics s.

(** A metric whose value is always a number not above [bound]. *)
Definition never_above (bound : Q) (m : Metric) : Prop :=
  forall outs,
    exists x, as_number (compute m outs) = Some x /\ (x <= bound)%Q.

(** Every metric value in the state is a number not above [bound]. *)
Definition metrics_not_above (bound : Q) (s : State) : Prop :=
  forall name v,
    dict_get name (metrics s) = Some v ->
    exists x, as_number v = Some x /\ (x <= bound)%Q.

(** A metric that is a negated loss: its value is never above [-1]. *)
Definition negated_loss : Metric :=
  mkMetric 3
    (fun outs => VFloat (inject_Z (- 1 - Z.of_nat (List.length outs)))).

(** A workflow tracking [negated_loss], with a handler. *)
Definition loss_workflow : Workflow :=
  built counting_step cpu (VInt 2) (VBool false) three_batches
    identity_batch (ODict [("neg_loss", negated_loss)]) (OVal VNone)
    (OList [timer_handler]).

(** * Properties *)

(** ** Dictionaries *)

Section DictFacts.
Context {V : Type}.
Implicit Types (d other : list (string * V)) (k : string) (v : V).

Lemma dict_get_set_same d k v : dict_get k (dict_set k v d) = Some v.
Proof.
  induction d as [|[k' v'] d IH]; simpl.
  - now rewrite String.eqb_refl.
  - destruct (String.eqb k k') eqn:E; simpl.
    + now rewrite String.eqb_refl.
    + now rewrite E.
Qed.

Lemma dict_get_set_other d k k' v :
  k <> k' -> dict_get k (dict_set k' v d) = dict_get k d.
Proof.
  intros Hne. apply String.eqb_neq in Hne.
  induction d as [|[k0 v0] d IH]; simpl.
  - now rewrite Hne.
  - destruct (String.eqb k' k0) eqn:E; simpl.
    + apply String.eqb_eq in E. subst k0. now rewrite Hne.
    + now rewrite IH.
Qed.

Lemma dict_keys_set d k v k' :
  In k' (dict_keys (dict_set k v d)) <-> k' = k \/ In k' (dict_keys d).
Proof.
  unfold dict_keys.
  induction d as [|[k0 v0] d IH]; simpl.
  - intuition.
  - destruct (String.eqb k k0) eqn:E; simpl.
    + apply String.eqb_eq in E. subst k0. intuition.
    + rewrite IH. intuition.
Qed.

Lemma dict_wf_set d k v : dict_wf d -> dict_wf (dict_set k v d).
Proof.
  unfold dict_wf.
  induction d as [|[k0 v0] d IH]; simpl; intros Hwf.
  - constructor; [intros [] | constructor].
  - inversion Hwf as [|? ? Hnotin Hd]; subst.
    destruct (String.eqb k k0) eqn:E; simpl.
    + apply String.eqb_eq in E. subst k0. now constructor.
    + constructor; [|now apply IH].
      intros Hin. apply dict_keys_set in Hin as [->|Hin]; [|tauto].
      now rewrite String.eqb_refl in E.
Qed.

Lemma dict_wf_update d other : dict_wf d -> dict_wf (dict_update d other).
Proof.
  unfold dict_update. revert d.
  induction other as [|[k v] other IH]; simpl; intros d Hwf; [easy|].
  apply IH. now apply dict_wf_set.
Qed.

Lemma dict_get_None_notin d k :
  ~ In k (dict_keys d) -> dict_get k d = None.
Proof.
  induction d as [|[k0 v0] d IH]; simpl; intros Hnotin; [easy|].
  destruct (String.eqb k k0) eqn:E.
  - apply String.eqb_eq in E. subst. tauto.
  - apply IH. tauto.
Qed.

Lemma dict_get_In d k v : dict_get k d = Some v -> In (k, v) d.
Proof.
  induction d as [|[k0 v0] d IH]; simpl; [easy|].
  destruct (String.eqb k k0) eqn:E.
  - apply String.eqb_eq in E. intros [= ->]. subst. now left.
  - intros H. right. now apply IH.
Qed.

Lemma dict_wf_In_get d k v : dict_wf d -> In (k, v) d -> dict_get k d = Some v.
Proof.
  unfold dict_wf.
  induction d as [|[k0 v0] d IH]; simpl; intros Hwf Hin; [easy|].
  inversion Hwf as [|? ? Hnotin Hd]; subst.
  destruct Hin as [[= -> ->]|Hin].
  - now rewrite String.eqb_refl.
  - destruct (String.eqb k k0) eqn:E; [|now apply IH].
    apply String.eqb_eq in E. subst k0. exfalso. apply Hnotin.
    unfold dict_keys. change k with (fst (k, v)). now apply in_map.
Qed.

(** After [d.update(other)] a key of [other] maps to what [other] gives
    it, any other key to what [d] gave it. *)
Lemma dict_get_update d other k :
  dict_wf other ->
  dict_get k (dict_update d other) =
  match dict_get k other with
  | Some v => Some v
  | None => dict_get k d
  end.
Proof.
  unfold dict_update, dict_wf. revert d.
  induction other as [|[k0 v0] other IH]; simpl; intros d Hwf; [easy|].
  inversion Hwf as [|? ? Hnotin Hd]; subst.
  rewrite IH by assumption.
  destruct (String.eqb k k0) eqn:E.
  - apply String.eqb_eq in E. subst k0.
    rewrite (dict_get_None_notin other k Hnotin).
    apply dict_get_set_same.
  - destruct (dict_get k other); [easy|].
    apply dict_get_set_other. intros ->. now rewrite String.eqb_refl in E.
Qed.

End DictFacts.

(** ** The event table built by the constructor *)

Lemma handlers_for_app ev t1 t2 :
  handlers_for ev (t1 ++ t2) = handlers_for ev t1 ++ handlers_for ev t2.
Proof. unfold handlers_for. now rewrite filter_app, map_app. Qed.

Lemma handlers_for_In ev cb table :
  In cb (handlers_for ev table) <-> In (ev, cb) table.
Proof.
  unfold handlers_for. rewrite in_map_iff. split.
  - intros [[ev' cb'] [Hcb Hin]]. simpl in Hcb. subst cb'.
    apply filter_In in Hin as [Hin Hev]. simpl in Hev.
    destruct ev, ev'; try discriminate; exact Hin.
  - intros Hin. exists (ev, cb). split; [reflexivity|].
    apply filter_In. split; [exact Hin|]. simpl. now destruct ev.
Qed.

Lemma Metric_attach_table m e name :
  exists extra,
    event_handlers (Metric_attach m e name) =
      event_handlers e ++ (EPOCH_COMPLETED, metric_completed m name) :: extra
    /\ handlers_for EPOCH_COMPLETED extra = [].
Proof.
  unfold Metric_attach.
  destruct (has_update m _).
  - exists []. simpl. split; [reflexivity|reflexivity].
  - exists [(ITERATION_COMPLETED, metric_iteration_completed m)]. simpl.
    rewrite <- app_assoc. split; reflexivity.
Qed.

Lemma Metric_attach_frame m e name :
  process (Metric_attach m e name) = process e
  /\ state (Metric_attach m e name) = state e.
Proof. unfold Metric_attach. destruct (has_update m _); split; reflexivity. Qed.

Lemma attach_metric_set_frame ms : forall e,
  let e' := fold_left (fun e item => Metric_attach (snd item) e (fst item))
              ms e in
  process e' = process e /\ state e' = state e.
Proof.
  induction ms as [|[name m] ms IH]; simpl; intros e; [split; reflexivity|].
  destruct (IH (Metric_attach m e name)) as [Hp Hs].
  destruct (Metric_attach_frame m e name) as [Hp' Hs'].
  split; congruence.
Qed.

Lemma attach_metric_set_reductions ms : forall e,
  handlers_for EPOCH_COMPLETED
    (event_handlers
       (fold_left (fun e item => Metric_attach (snd item) e (fst item)) ms e))
  = handlers_for EPOCH_COMPLETED (event_handlers e) ++ reductions ms.
Proof.
  induction ms as [|[name m] ms IH]; simpl; intros e.
  - now rewrite app_nil_r.
  - rewrite IH.
    destruct (Metric_attach_table m e name) as [extra [-> Hextra]].
    rewrite handlers_for_app.
    change ((EPOCH_COMPLETED, metric_completed m name) :: extra)
      with ([(EPOCH_COMPLETED, metric_completed m name)] ++ extra).
    rewrite handlers_for_app, Hextra, app_nil_r, <- app_assoc.
    reflexivity.
Qed.

Lemma Handler_attach_table h e :
  event_handlers (Handler_attach h e) = event_handlers e ++ handler_entries h
  /\ process (Handler_attach h e) = process e
  /\ state (Handler_attach h e) = state e.
Proof.
  unfold Handler_attach, handler_entries.
  revert e. induction (registrations h) as [|r rs IH]; simpl; intros e.
  - now rewrite app_nil_r.
  - destruct (IH (Engine_on (fst r) (handler_cb (snd r)) e))
      as [Ht [Hp Hs]].
    rewrite Ht, Hp, Hs. simpl. now rewrite <- app_assoc.
Qed.

Lemma attach_handler_list_table hs : forall e,
  let e' := fold_left (fun e handler => Handler_attach handler e) hs e in
  event_handlers e' = event_handlers e ++ flat_map handler_entries hs
  /\ process e' = process e
  /\ state e' = state e.
Proof.
  induction hs as [|h hs IH]; simpl; intros e.
  - now rewrite app_nil_r.
  - destruct (IH (Handler_attach h e)) as [Ht [Hp Hs]].
    destruct (Handler_attach_table h e) as [Ht' [Hp' Hs']].
    rewrite Ht, Hp, Hs, Ht', Hp', Hs'. now rewrite <- app_assoc.
Qed.

Lemma handler_entries_only_handlers hs ev cb :
  In (ev, cb) (flat_map handler_entries hs) -> exists f, cb = handler_cb f.
Proof.
  rewrite in_flat_map. intros [h [_ Hin]].
  unfold handler_entries in Hin. apply in_map_iff in Hin as [r [[= _ <-] _]].
  now exists (snd r).
Qed.

(** ** The constructor, branch by branch *)

Lemma init_base_fails it dev me amp dl pb km am hs :
  base_ok dev me dl = false ->
  exists msg,
    snd (__init__ it dev me amp dl pb km am hs) = inl (AssertionError msg).
Proof.
  unfold base_ok, __init__. simpl.
  destruct (isinstance_device dev); simpl; [|eexists; reflexivity].
  destruct (isinstance_int me); simpl; [|eexists; reflexivity].
  destruct (isinstance_DataLoader dl); simpl; [discriminate|].
  eexists; reflexivity.
Qed.

Lemma init_base_ok it dev me amp dl pb km am hs :
  base_ok dev me dl = true ->
  snd (__init__ it dev me amp dl pb km am hs) =
  bind (if negb (is_None km)
        then attach_metrics km am
               (mkEngine it (initial_state dev me amp) [])
        else ret (mkEngine it (initial_state dev me amp) []))
    (fun e => bind (attach_handlers hs e)
                (fun e => ret (mkWorkflow e dl pb))).
Proof.
  unfold base_ok, __init__. simpl.
  destruct (isinstance_device dev); simpl; [|discriminate].
  destruct (isinstance_int me); simpl; [|discriminate].
  destruct (isinstance_DataLoader dl); simpl; [|discriminate].
  reflexivity.
Qed.

Lemma attach_handlers_ok hs e :
  handlers_ok hs = true ->
  attach_handlers hs e =
  ret (fold_left (fun e handler => Handler_attach handler e) (elements hs) e).
Proof.
  unfold handlers_ok, sized_ok, attach_handlers.
  destruct (is_None hs) eqn:HN; simpl.
  - intros _. destruct hs as [[]| | | | |]; try discriminate. reflexivity.
  - destruct (py_len hs) as [err|n] eqn:Hlen; simpl; [discriminate|].
    destruct (0 <? n) eqn:Hn; simpl.
    + intros ->. reflexivity.
    + intros _. apply Z.ltb_ge in Hn.
      destruct hs as [v| | |items|items|items]; simpl in *;
        try reflexivity; injection Hlen as <-;
        destruct items; simpl in *; try reflexivity; lia.
Qed.

Lemma merge_additional_ok ms am :
  additional_ok am = true ->
  merge_additional ms am = ret (dict_update ms (dict_items am)).
Proof.
  unfold additional_ok, sized_ok, merge_additional.
  destruct (is_None am) eqn:HN; simpl.
  - intros _. destruct am as [[]| | | | |]; try discriminate. reflexivity.
  - destruct (py_len am) as [err|n] eqn:Hlen; simpl; [discriminate|].
    destruct (0 <? n) eqn:Hn; simpl.
    + intros ->. reflexivity.
    + intros _. apply Z.ltb_ge in Hn.
      destruct am as [v| | |items|items|items]; simpl in *;
        try reflexivity; injection Hlen as <-;
        destruct items; simpl in *; try reflexivity; lia.
Qed.

Lemma merge_additional_fails ms am :
  additional_ok am = false -> exists err, merge_additional ms am = inl err.
Proof.
  unfold additional_ok, sized_ok, merge_additional.
  destruct (is_None am) eqn:HN; simpl; [discriminate|].
  destruct (py_len am) as [err|n] eqn:Hlen; simpl; [now exists err|].
  destruct (0 <? n) eqn:Hn; simpl; [|discriminate].
  intros ->. simpl. eexists; reflexivity.
Qed.

Lemma attach_metrics_ok name m rest am e :
  additional_ok am = true ->
  attach_metrics (ODict ((name, m) :: rest)) am e =
  ret (with_metrics name (working_metrics (ODict ((name, m) :: rest)) am) e).
Proof.
  intros Hok. unfold attach_metrics, with_metrics, working_metrics.
  cbn [isinstance_dict py_assert bind ret dict_items dict_keys map fst
       list_first].
  rewrite merge_additional_ok by assumption. reflexivity.
Qed.

Lemma attach_metrics_inv km am e e' :
  attach_metrics km am e = inr e' ->
  exists name m rest,
    km = ODict ((name, m) :: rest)
    /\ additional_ok am = true
    /\ e' = with_metrics name (working_metrics km am) e.
Proof.
  intros H.
  destruct km as [v|m0|h0|items|items|items];
    try (unfold attach_metrics in H; simpl in H; discriminate).
  destruct items as [|[name m] rest];
    [unfold attach_metrics in H; simpl in H; discriminate|].
  exists name, m, rest. split; [reflexivity|].
  destruct (additional_ok am) eqn:Hok.
  - rewrite attach_metrics_ok in H by assumption.
    injection H as <-. split; reflexivity.
  - exfalso. unfold attach_metrics in H.
    cbn [isinstance_dict py_assert bind ret dict_items dict_keys map fst
         list_first] in H.
    destruct (merge_additional_fails ((name, m) :: rest) am Hok) as [err E].
    rewrite E in H. discriminate.
Qed.

Lemma attach_handlers_fails hs e :
  handlers_ok hs = false -> exists err, attach_handlers hs e = inl err.
Proof.
  unfold handlers_ok, sized_ok, attach_handlers.
  destruct (is_None hs) eqn:HN; simpl; [discriminate|].
  destruct (py_len hs) as [err|n] eqn:Hlen; simpl; [now exists err|].
  destruct (0 <? n) eqn:Hn; simpl; [|discriminate].
  intros ->. simpl. eexists; reflexivity.
Qed.

Lemma init_ok_built it dev me amp dl pb km am hs :
  init_ok dev me dl km am hs = true ->
  snd (__init__ it dev me amp dl pb km am hs)
  = inr (built it dev me amp dl pb km am hs).
Proof.
  unfold init_ok, metrics_ok. intros H.
  apply andb_prop in H as [H Hhs]. apply andb_prop in H as [Hbase Hms].
  rewrite init_base_ok by assumption. unfold built.
  destruct (is_None km) eqn:HN; simpl in *.
  - rewrite attach_handlers_ok by assumption. reflexivity.
  - destruct km as [v|m0|h0|items|items|items]; try discriminate.
    destruct items as [|[name m] rest]; [discriminate|].
    rewrite attach_metrics_ok by assumption. simpl.
    rewrite attach_handlers_ok by assumption. reflexivity.
Qed.

Lemma init_not_ok_fails it dev me amp dl pb km am hs :
  init_ok dev me dl km am hs = false ->
  exists err, snd (__init__ it dev me amp dl pb km am hs) = inl err.
Proof.
  unfold init_ok, metrics_ok. intros H.
  destruct (base_ok dev me dl) eqn:Hbase.
  - rewrite init_base_ok by assumption. simpl in H.
    destruct (is_None km) eqn:HN; simpl in *.
    + destruct (attach_handlers_fails hs
                  (mkEngine it (initial_state dev me amp) []) H) as [err E].
      rewrite E. now exists err.
    + destruct (attach_metrics km am
                  (mkEngine it (initial_state dev me amp) []))
        as [err|e1] eqn:E; simpl; [now exists err|].
      apply attach_metrics_inv in E as [name [m [rest [-> [Hok _]]]]].
      rewrite Hok in H. simpl in H.
      destruct (attach_handlers_fails hs e1 H) as [err E].
      rewrite E. now exists err.
  - destruct (init_base_fails it dev me amp dl pb km am hs Hbase) as [msg E].
    now exists (AssertionError msg).
Qed.

Lemma init_inv it dev me amp dl pb km am hs self :
  snd (__init__ it dev me amp dl pb km am hs) = inr self ->
  init_ok dev me dl km am hs = true
  /\ self = built it dev me amp dl pb km am hs.
Proof.
  intros H. destruct (init_ok dev me dl km am hs) eqn:Hok.
  - rewrite init_ok_built in H by assumption. injection H as <-. now split.
  - destruct (init_not_ok_fails it dev me amp dl pb km am hs Hok) as [err E].
    rewrite E in H. discriminate.
Qed.

Lemma built_table it dev me amp dl pb km am hs :
  handlers_for EPOCH_COMPLETED
    (event_handlers (engine (built it dev me amp dl pb km am hs)))
  = (if is_None km then []
     else reductions (working_metrics km am) ++ [post_epoch_process_cb])
    ++ handlers_for EPOCH_COMPLETED (flat_map handler_entries (elements hs)).
Proof.
  unfold built. cbn [engine].
  match goal with
  | |- context [fold_left _ (elements hs) ?e1] =>
      destruct (attach_handler_list_table (elements hs) e1) as [-> _]
  end.
  rewrite handlers_for_app. f_equal.
  destruct (is_None km); [reflexivity|].
  unfold with_metrics, Engine_on. cbn [event_handlers].
  rewrite handlers_for_app, attach_metric_set_reductions. reflexivity.
Qed.

Lemma built_state it dev me amp dl pb km am hs :
  state (engine (built it dev me amp dl pb km am hs))
  = if is_None km then initial_state dev me amp
    else set_key_metric_name (Some (first_key km))
           (initial_state dev me amp).
Proof.
  unfold built. cbn [engine].
  match goal with
  | |- context [fold_left _ (elements hs) ?e1] =>
      destruct (attach_handler_list_table (elements hs) e1) as [_ [_ ->]]
  end.
  destruct (is_None km); [reflexivity|].
  unfold with_metrics, Engine_on. cbn [state].
  match goal with
  | |- context [fold_left _ ?ms ?e] =>
      destruct (attach_metric_set_frame ms e) as [_ ->]
  end.
  reflexivity.
Qed.

(** ** Construction *)

(** C3, as stated, fails: [max_epochs = 0] is not an integer [>= 1], yet the
    constructor builds the workflow. *)
Lemma zero_max_epochs_is_accepted :
  (isinstance_int (VInt 0) && (1 <=? int_value (VInt 0))) = false
  /\ exists self,
       snd (__init__ _iteration cpu (VInt 0) (VBool false) three_batches
              identity_batch (OVal VNone) (OVal VNone) (OVal VNone))
       = inr self
       /\ max_epochs (state (engine self)) = 0.
Proof. split; [reflexivity|]. eexists. split; reflexivity. Qed.

(** C3 (amended): the constructor checks the type of [max_epochs], not its
    value.  An argument that is not an [int] instance makes it fail with an
    [AssertionError]; whatever arguments build a workflow with
    [max_epochs = 1] build one with any other integer, zero and negative
    ones included. *)
Theorem max_epochs_is_checked_for_type_only
  it dev me amp dl pb km am hs :
  (isinstance_int me = false ->
   exists msg,
     snd (__init__ it dev me amp dl pb km am hs) = inl (AssertionError msg))
  /\ (forall n self,
        snd (__init__ it dev (VInt 1) amp dl pb km am hs) = inr self ->
        exists self',
          snd (__init__ it dev (VInt n) amp dl pb km am hs) = inr self'
          /\ max_epochs (state (engine self')) = n).
Proof.
  split.
  - intros Hme. apply init_base_fails. unfold base_ok. rewrite Hme.
    now rewrite andb_false_r.
  - intros n self H. apply init_inv in H as [Hok _].
    exists (built it dev (VInt n) amp dl pb km am hs). split.
    + apply init_ok_built. exact Hok.
    + rewrite built_state. now destruct (is_None km).
Qed.

Lemma max_epochs_is_checked_for_type_only_witness :
  (exists msg,
     snd (__init__ _iteration cpu (VFloat 2) (VBool false) three_batches
            identity_batch (OVal VNone) (OVal VNone) (OVal VNone))
     = inl (AssertionError msg))
  /\ (exists self',
        snd (__init__ _iteration cpu (VInt (-3)) (VBool false) three_batches
               identity_batch (OVal VNone) (OVal VNone) (OVal VNone))
        = inr self'
        /\ max_epochs (state (engine self')) = -3).
Proof.
  split.
  - apply (proj1 (max_epochs_is_checked_for_type_only _iteration cpu
                    (VFloat 2) (VBool false) three_batches identity_batch
                    (OVal VNone) (OVal VNone) (OVal VNone))).
    reflexivity.
  - apply (proj2 (max_epochs_is_checked_for_type_only _iteration cpu
                    (VFloat 2) (VBool false) three_batches identity_batch
                    (OVal VNone) (OVal VNone) (OVal VNone)) (-3)
             (built _iteration cpu (VInt 1) (VBool false) three_batches
                identity_batch (OVal VNone) (OVal VNone) (OVal VNone))).
    reflexivity.
Defined.

(** C4: a [key_metric] that is given but is not a dict, or is an empty
    dict, makes the constructor fail: with the assertion on its type in the
    first case, with the [IndexError] of taking the first key in the second
    (unless one of the three leading assertions fails first). *)
Theorem key_metric_must_be_nonempty_dict
  it dev me amp dl pb km am hs :
  is_None km = false ->
  isinstance_dict km = false \/ km = ODict [] ->
  exists err,
    snd (__init__ it dev me amp dl pb km am hs) = inl err
    /\ (base_ok dev me dl = true ->
        err = if isinstance_dict km then IndexError
              else AssertionError "key_metric must be a dict object.").
Proof.
  intros HN Hbad.
  destruct (base_ok dev me dl) eqn:Hbase.
  - rewrite init_base_ok by assumption. rewrite HN. simpl.
    destruct Hbad as [Hnd | ->].
    + unfold attach_metrics. rewrite Hnd. simpl.
      eexists. split; [reflexivity|]. intros _. reflexivity.
    + unfold attach_metrics. simpl.
      eexists. split; [reflexivity|]. intros _. reflexivity.
  - destruct (init_base_fails it dev me amp dl pb km am hs Hbase) as [msg E].
    exists (AssertionError msg). split; [exact E|discriminate].
Qed.

Lemma key_metric_must_be_nonempty_dict_witness :
  exists err,
    snd (__init__ _iteration cpu (VInt 2) (VBool false) three_batches
           identity_batch (ODict []) (OVal VNone) (OVal VNone)) = inl err
    /\ (base_ok cpu (VInt 2) three_batches = true -> err = IndexError).
Proof.
  apply (key_metric_must_be_nonempty_dict _iteration cpu (VInt 2)
           (VBool false) three_batches identity_batch (ODict [])
           (OVal VNone) (OVal VNone)).
  - reflexivity.
  - right. reflexivity.
Defined.

(** C5: when [key_metric] has several entries, its first key in iteration
    order becomes [state.key_metric_name], and the further entries raise no
    error. *)
Theorem first_key_is_the_key_metric
  it dev me amp dl pb name m rest am hs :
  base_ok dev me dl = true ->
  additional_ok am = true ->
  handlers_ok hs = true ->
  exists self,
    snd (__init__ it dev me amp dl pb (ODict ((name, m) :: rest)) am hs)
    = inr self
    /\ key_metric_name (state (engine self)) = Some name.
Proof.
  intros Hbase Ham Hhs.
  exists (built it dev me amp dl pb (ODict ((name, m) :: rest)) am hs).
  split.
  - apply init_ok_built. unfold init_ok, metrics_ok.
    rewrite Hbase, Ham, Hhs. reflexivity.
  - rewrite built_state. reflexivity.
Qed.

Lemma first_key_is_the_key_metric_witness :
  exists self,
    snd (__init__ counting_step cpu (VInt 2) (VBool false) three_batches
           identity_batch
           (ODict [("mean_dice", mean_dice); ("accuracy", accuracy)])
           (OVal VNone) (OList [stats_handler]))
    = inr self
    /\ key_metric_name (state (engine self)) = Some "mean_dice".
Proof.
  apply (first_key_is_the_key_metric counting_step cpu (VInt 2) (VBool false)
           three_batches identity_batch "mean_dice" mean_dice
           [("accuracy", accuracy)] (OVal VNone) (OList [stats_handler]));
    reflexivity.
Defined.

Lemma handlers_for_flat_map {A} ev (f : A -> list (Events * Callback)) l :
  handlers_for ev (flat_map f l)
  = flat_map (fun a => handlers_for ev (f a)) l.
Proof.
  induction l as [|a l IH]; simpl; [reflexivity|].
  now rewrite handlers_for_app, IH.
Qed.

Lemma handlers_ok_sequence hl :
  handlers_ok (OList hl) = true /\ handlers_ok (OTuple hl) = true.
Proof.
  unfold handlers_ok, sized_ok. simpl. now rewrite orb_true_r.
Qed.

(** C8: the constructor calls [attach(engine)] on the handlers in the order
    of the sequence, so that the callbacks of one event kind follow those
    already in the table, handler by handler; a null or empty sequence is
    accepted and attaches nothing. *)
Theorem handlers_are_attached_in_sequence_order
  it dev me amp dl pb km am self0 :
  snd (__init__ it dev me amp dl pb km am (OVal VNone)) = inr self0 ->
  snd (__init__ it dev me amp dl pb km am (OList [])) = inr self0
  /\ snd (__init__ it dev me amp dl pb km am (OTuple [])) = inr self0
  /\ forall hl,
     exists self,
       snd (__init__ it dev me amp dl pb km am (OList hl)) = inr self
       /\ snd (__init__ it dev me amp dl pb km am (OTuple hl)) = inr self
       /\ engine self
          = fold_left (fun e handler => Handler_attach handler e) hl
              (engine self0)
       /\ event_handlers (engine self)
          = event_handlers (engine self0) ++ flat_map handler_entries hl
       /\ forall ev,
            handlers_for ev (event_handlers (engine self))
            = handlers_for ev (event_handlers (engine self0))
              ++ flat_map (fun h => handlers_for ev (handler_entries h)) hl.
Proof.
  intros H0. apply init_inv in H0 as [Hok ->].
  unfold init_ok in Hok. apply andb_prop in Hok as [Hok _].
  assert (Hseq : forall hl,
             snd (__init__ it dev me amp dl pb km am (OList hl))
             = inr (built it dev me amp dl pb km am (OList hl))
             /\ snd (__init__ it dev me amp dl pb km am (OTuple hl))
                = inr (built it dev me amp dl pb km am (OList hl))).
  { intros hl. destruct (handlers_ok_sequence hl) as [Hl Ht].
    split.
    - apply init_ok_built. unfold init_ok. now rewrite Hok, Hl.
    - rewrite init_ok_built by (unfold init_ok; now rewrite Hok, Ht).
      reflexivity. }
  split; [exact (proj1 (Hseq []))|].
  split; [exact (proj2 (Hseq []))|].
  intros hl. exists (built it dev me amp dl pb km am (OList hl)).
  destruct (Hseq hl) as [Hl Ht].
  split; [exact Hl|]. split; [exact Ht|].
  split; [reflexivity|].
  assert (Htable :
            event_handlers
              (engine (built it dev me amp dl pb km am (OList hl)))
            = event_handlers
                (engine (built it dev me amp dl pb km am (OVal VNone)))
              ++ flat_map handler_entries hl).
  { unfold built. cbn [engine elements fold_left].
    match goal with
    | |- context [fold_left _ hl ?e1] =>
        destruct (attach_handler_list_table hl e1) as [-> _]
    end.
    reflexivity. }
  split; [exact Htable|].
  intros ev. rewrite Htable, handlers_for_app, handlers_for_flat_map.
  reflexivity.
Qed.

Lemma handlers_are_attached_in_sequence_order_witness :
  exists self,
    snd (__init__ counting_step cpu (VInt 2) (VBool false) three_batches
           identity_batch (ODict [("mean_dice", mean_dice)]) (OVal VNone)
           (OList [stats_handler; timer_handler])) = inr self
    /\ handlers_for EPOCH_COMPLETED (event_handlers (engine self))
       = [metric_completed mean_dice "mean_dice"; post_epoch_process_cb]
         ++ (handlers_for EPOCH_COMPLETED (handler_entries stats_handler)
             ++ handlers_for EPOCH_COMPLETED (handler_entries timer_handler)
             ++ []).
Proof.
  destruct (handlers_are_attached_in_sequence_order counting_step cpu
              (VInt 2) (VBool false) three_batches identity_batch
              (ODict [("mean_dice", mean_dice)]) (OVal VNone)
              (built counting_step cpu (VInt 2) (VBool false) three_batches
                 identity_batch (ODict [("mean_dice", mean_dice)])
                 (OVal VNone) (OVal VNone))
              eq_refl) as [_ [_ H]].
  destruct (H [stats_handler; timer_handler])
    as [self [Hl [_ [_ [_ Hev]]]]].
  exists self. split; [exact Hl|]. exact (Hev EPOCH_COMPLETED).
Defined.

(** C10: without a key metric the additional metrics play no part.  The
    constructor prints and returns the same as when none are given; it
    succeeds whenever the leading assertions and the handlers pass; and the
    workflow it builds has no key metric name and an event table holding
    the callbacks of the handlers only: no metric callback, no best-metric
    callback. *)
Theorem additional_metrics_ignored_without_key_metric
  it dev me amp dl pb am hs :
  __init__ it dev me amp dl pb (OVal VNone) am hs
  = __init__ it dev me amp dl pb (OVal VNone) (OVal VNone) hs
  /\ (base_ok dev me dl = true -> handlers_ok hs = true ->
      exists self,
        snd (__init__ it dev me amp dl pb (OVal VNone) am hs) = inr self)
  /\ (forall self,
        snd (__init__ it dev me amp dl pb (OVal VNone) am hs) = inr self ->
        key_metric_name (state (engine self)) = None
        /\ event_handlers (engine self)
           = flat_map handler_entries (elements hs)
        /\ forall ev cb,
             In (ev, cb) (event_handlers (engine self)) ->
             exists f, cb = handler_cb f).
Proof.
  split; [reflexivity|]. split.
  - intros Hbase Hhs. eexists. apply init_ok_built.
    unfold init_ok. rewrite Hbase, Hhs. reflexivity.
  - intros self H. apply init_inv in H as [_ ->].
    assert (Htable :
              event_handlers
                (engine (built it dev me amp dl pb (OVal VNone) am hs))
              = flat_map handler_entries (elements hs)).
    { unfold built. cbn [engine is_None].
      match goal with
      | |- context [fold_left _ (elements hs) ?e1] =>
          destruct (attach_handler_list_table (elements hs) e1) as [-> _]
      end.
      reflexivity. }
    split; [now rewrite built_state|]. split; [exact Htable|].
    intros ev cb Hin. rewrite Htable in Hin.
    eapply handler_entries_only_handlers. exact Hin.
Qed.

Lemma additional_metrics_ignored_without_key_metric_witness :
  (exists self,
     snd (__init__ counting_step cpu (VInt 2) (VBool false) three_batches
            identity_batch (OVal VNone) (ODict [("accuracy", accuracy)])
            (OList [stats_handler])) = inr self)
  /\ key_metric_name
       (state (engine (built counting_step cpu (VInt 2) (VBool false)
                         three_batches identity_batch (OVal VNone)
                         (ODict [("accuracy", accuracy)])
                         (OList [stats_handler])))) = None.
Proof.
  pose proof (additional_metrics_ignored_without_key_metric counting_step
                cpu (VInt 2) (VBool false) three_batches identity_batch
                (ODict [("accuracy", accuracy)]) (OList [stats_handler]))
    as [_ [Hsucc Hshape]].
  split.
  - apply Hsucc; reflexivity.
  - apply (Hshape _ eq_refl).
Defined.

Lemma reductions_In ms m name :
  In (metric_completed m name) (reductions ms) <-> In (name, m) ms.
Proof.
  unfold reductions. rewrite in_map_iff. split.
  - intros [[name' m'] [[= -> ->] Hin]]. exact Hin.
  - intros Hin. now exists (name, m).
Qed.

Lemma dict_keys_update {V} (d other : list (string * V)) k :
  In k (dict_keys d) -> In k (dict_keys (dict_update d other)).
Proof.
  unfold dict_update. revert d.
  induction other as [|[k0 v0] other IH]; simpl; intros d Hin; [easy|].
  apply IH. apply dict_keys_set. now right.
Qed.

Lemma call_all_reductions ms : forall w,
  call_all (reductions ms) w
  = Normal (put_state
              (set_metrics
                 (reduce_all ms (accumulated w) (metrics (wstate w)))
                 (wstate w)) w).
Proof.
  induction ms as [|[name m] ms IH]; intros w.
  - simpl. now destruct w as [[] ? ? ?].
  - simpl. rewrite IH. reflexivity.
Qed.

Lemma reduce_all_defines ms acc : forall d k,
  In k (dict_keys ms) \/ In k (dict_keys d) ->
  exists v, dict_get k (reduce_all ms acc d) = Some v.
Proof.
  unfold reduce_all.
  induction ms as [|[name m] ms IH]; simpl; intros d k H.
  - destruct H as [[]|H]. destruct (dict_get k d) eqn:E; [eauto|].
    exfalso. revert H E. clear. induction d as [|[k0 v0] d IH]; simpl; [easy|].
    destruct (String.eqb k k0) eqn:E0; [discriminate|].
    intros [->|H]; [now rewrite String.eqb_refl in E0|]. now apply IH.
  - apply IH. destruct H as [[->|H]|H].
    + right. apply dict_keys_set. now left.
    + now left.
    + right. apply dict_keys_set. now right.
Qed.

Lemma call_all_app cbs1 cbs2 w :
  call_all (cbs1 ++ cbs2) w = and_then (call_all cbs1 w) (call_all cbs2).
Proof.
  revert w. induction cbs1 as [|cb cbs1 IH]; simpl; intros w; [reflexivity|].
  destruct (call cb w) as [w'|err w']; simpl; [apply IH|reflexivity].
Qed.

(** C6: when a name occurs in both [key_metric] and [additional_metrics],
    the constructor succeeds, prints nothing about it, and the metric set it
    attaches maps the name to the object from [additional_metrics]: that
    object, and no other, is reduced under the name on [EPOCH_COMPLETED]. *)
Theorem additional_metric_overwrites_key_metric
  it dev me amp dl pb km am hs name mk ma :
  base_ok dev me dl = true ->
  handlers_ok hs = true ->
  dict_wf km -> dict_wf am ->
  dict_get name km = Some mk ->
  dict_get name am = Some ma ->
  exists self,
    __init__ it dev me amp dl pb (ODict km) (ODict am) hs
    = ((if truthy amp then [amp_notice] else []), inr self)
    /\ dict_get name (working_metrics (ODict km) (ODict am)) = Some ma
    /\ forall m,
         In (EPOCH_COMPLETED, metric_completed m name)
           (event_handlers (engine self)) <-> m = ma.
Proof.
  intros Hbase Hhs Hkm Ham Hk Ha.
  assert (Hadd : additional_ok (ODict am) = true).
  { unfold additional_ok, sized_ok. simpl. now rewrite orb_true_r. }
  assert (Hne : exists k0 m0 rest, km = (k0, m0) :: rest).
  { destruct km as [|[k0 m0] rest]; [discriminate|]. eauto. }
  destruct Hne as [k0 [m0 [rest Ekm]]].
  assert (Hget : dict_get name (working_metrics (ODict km) (ODict am))
                 = Some ma).
  { unfold working_metrics. simpl. rewrite dict_get_update by assumption.
    now rewrite Ha. }
  assert (Hwf : dict_wf (working_metrics (ODict km) (ODict am))).
  { unfold working_metrics. simpl. now apply dict_wf_update. }
  exists (built it dev me amp dl pb (ODict km) (ODict am) hs).
  split; [|split; [exact Hget|]].
  - rewrite (surjective_pairing (__init__ _ _ _ _ _ _ _ _ _)).
    f_equal. apply init_ok_built. unfold init_ok, metrics_ok.
    rewrite Hbase, Hhs, Ekm. simpl. now rewrite Hadd.
  - intros m. rewrite <- handlers_for_In, built_table. simpl.
    rewrite !in_app_iff, reductions_In, handlers_for_In. split.
    + intros [[Hin|Hin]|Hin].
      * apply dict_wf_In_get in Hin; [congruence|exact Hwf].
      * destruct Hin as [Hin|[]]. discriminate.
      * apply handler_entries_only_handlers in Hin as [f Hf]. discriminate.
    + intros ->. left. left. now apply dict_get_In.
Qed.

Lemma additional_metric_overwrites_key_metric_witness :
  exists self,
    __init__ counting_step cpu (VInt 2) (VBool false) three_batches
      identity_batch
      (ODict [("accuracy", accuracy)])
      (ODict [("mean_dice", mean_dice); ("accuracy", other_accuracy)])
      (OVal VNone)
    = ([], inr self)
    /\ dict_get "accuracy"
         (working_metrics (ODict [("accuracy", accuracy)])
            (ODict [("mean_dice", mean_dice); ("accuracy", other_accuracy)]))
       = Some other_accuracy
    /\ forall m,
         In (EPOCH_COMPLETED, metric_completed m "accuracy")
           (event_handlers (engine self)) <-> m = other_accuracy.
Proof.
  apply (additional_metric_overwrites_key_metric counting_step cpu (VInt 2)
           (VBool false) three_batches identity_batch
           [("accuracy", accuracy)]
           [("mean_dice", mean_dice); ("accuracy", other_accuracy)]
           (OVal VNone) "accuracy" accuracy other_accuracy).
  - reflexivity.
  - reflexivity.
  - repeat constructor; simpl; intuition discriminate.
  - repeat constructor; simpl; intuition discriminate.
  - reflexivity.
  - reflexivity.
Defined.

(** C7: in a workflow built with a key metric, the callbacks registered on
    [EPOCH_COMPLETED] are, in order, the reductions of the attached metric
    set, the best-metric callback, and the callbacks of the handlers.  So
    one firing of [EPOCH_COMPLETED] first runs every reduction, which leaves
    a value under the key metric name, and only then the best-metric
    callback. *)
Theorem best_metric_callback_follows_reductions
  it dev me amp dl pb km am hs self :
  is_None km = false ->
  snd (__init__ it dev me amp dl pb km am hs) = inr self ->
  let ms := working_metrics km am in
  let user :=
    handlers_for EPOCH_COMPLETED (flat_map handler_entries (elements hs)) in
  handlers_for EPOCH_COMPLETED (event_handlers (engine self))
  = reductions ms ++ post_epoch_process_cb :: user
  /\ (forall cb, In cb user -> exists f, cb = handler_cb f)
  /\ forall w,
     exists w1 v,
       call_all (reductions ms) (log_fired EPOCH_COMPLETED w) = Normal w1
       /\ key_metric_name (state (engine self)) = Some (first_key km)
       /\ dict_get (first_key km) (metrics (wstate w1)) = Some v
       /\ fire_event (engine self) EPOCH_COMPLETED w
          = and_then (post_epoch_process w1) (call_all user).
Proof.
  intros HN H ms user. apply init_inv in H as [Hok ->].
  assert (Htable :
            handlers_for EPOCH_COMPLETED
              (event_handlers (engine (built it dev me amp dl pb km am hs)))
            = reductions ms ++ post_epoch_process_cb :: user).
  { rewrite built_table, HN, <- app_assoc. reflexivity. }
  split; [exact Htable|]. split.
  - intros cb Hin. apply handlers_for_In in Hin.
    eapply handler_entries_only_handlers. exact Hin.
  - intros w. unfold fire_event. rewrite Htable, call_all_app.
    rewrite call_all_reductions.
    unfold init_ok, metrics_ok in Hok. rewrite HN in Hok. simpl in Hok.
    apply andb_prop in Hok as [Hok _]. apply andb_prop in Hok as [_ Hms].
    destruct km as [v|m0|h0|items|items|items]; try discriminate.
    destruct items as [|[name m] rest]; [discriminate|].
    destruct (reduce_all_defines ms
                (accumulated (log_fired EPOCH_COMPLETED w))
                (metrics (wstate (log_fired EPOCH_COMPLETED w))) name)
      as [v Hv].
    { left. unfold ms, working_metrics. apply dict_keys_update.
      simpl. now left. }
    eexists. exists v. split; [reflexivity|].
    split; [now rewrite built_state|].
    split; [exact Hv|]. reflexivity.
Qed.

Lemma best_metric_callback_follows_reductions_witness :
  handlers_for EPOCH_COMPLETED
    (event_handlers
       (engine (built counting_step cpu (VInt 2) (VBool false) three_batches
                  identity_batch (ODict [("mean_dice", mean_dice)])
                  (ODict [("accuracy", accuracy)])
                  (OList [stats_handler]))))
  = reductions [("mean_dice", mean_dice); ("accuracy", accuracy)]
    ++ post_epoch_process_cb
       :: handlers_for EPOCH_COMPLETED (handler_entries stats_handler ++ []).
Proof.
  apply (best_metric_callback_follows_reductions counting_step cpu (VInt 2)
           (VBool false) three_batches identity_batch
           (ODict [("mean_dice", mean_dice)])
           (ODict [("accuracy", accuracy)]) (OList [stats_handler])
           _ eq_refl eq_refl).
Defined.

(** ** The best-metric callback *)

Lemma Qlt_bool_true x y : (x < y)%Q -> Qlt_bool x y = true.
Proof.
  intros H. unfold Qlt_bool. apply negb_true_iff.
  destruct (Qle_bool y x) eqn:E; [|reflexivity].
  apply Qle_bool_iff in E. exfalso. exact (Qlt_not_le _ _ H E).
Qed.

Lemma Qlt_bool_false x y : (y <= x)%Q -> Qlt_bool x y = false.
Proof.
  intros H. unfold Qlt_bool. apply negb_false_iff. now apply Qle_bool_iff.
Qed.

Lemma py_gt_numbers a b x y :
  as_number a = Some x -> as_number b = Some y ->
  py_gt a b = ret (Qlt_bool y x).
Proof. unfold py_gt. now intros -> ->. Qed.

(** The callback on its own, on a world that holds a numeric value [v]
    under the key metric name: a strictly greater [v] becomes the best, with
    the current epoch; an equal or lower one changes nothing. *)
Lemma post_epoch_process_on_numbers
  w name v x y :
  key_metric_name (wstate w) = Some name ->
  dict_get name (metrics (wstate w)) = Some v ->
  as_number v = Some x ->
  as_number (best_metric (wstate w)) = Some y ->
  ((y < x)%Q ->
   exists w',
     post_epoch_process w = Normal w'
     /\ call post_epoch_process_cb w = Normal w'
     /\ best_metric (wstate w') = v
     /\ best_metric_epoch (wstate w') = epoch (wstate w)
     /\ w' = put_state
               (set_best_metric_epoch (epoch (wstate w))
                  (set_best_metric v (wstate w)))
               (print (GotNewBestMetric name v) w))
  /\ ((x <= y)%Q ->
      post_epoch_process w = Normal w
      /\ call post_epoch_process_cb w = Normal w).
Proof.
  intros Hname Hv Hx Hy.
  assert (Hgt : py_gt v (best_metric (wstate w)) = ret (Qlt_bool y x))
    by now apply py_gt_numbers.
  split; intros Hcmp.
  - assert (E : post_epoch_process w
                = Normal
                    (put_state
                       (set_best_metric_epoch (epoch (wstate w))
                          (set_best_metric v (wstate w)))
                       (print (GotNewBestMetric name v) w))).
    { unfold post_epoch_process. rewrite Hname, Hv, Hgt.
      rewrite (Qlt_bool_true _ _ Hcmp). reflexivity. }
    eexists. split; [exact E|]. split; [exact E|].
    repeat split; reflexivity.
  - assert (E : post_epoch_process w = Normal w).
    { unfold post_epoch_process. rewrite Hname, Hv, Hgt.
      rewrite (Qlt_bool_false _ _ Hcmp). reflexivity. }
    split; exact E.
Qed.

(** ** The event log of a run *)

Lemma extends_refl w : extends w w.
Proof. exists []. now rewrite app_nil_r. Qed.

Lemma extends_trans w1 w2 w3 : extends w1 w2 -> extends w2 w3 -> extends w1 w3.
Proof.
  intros [r1 H1] [r2 H2]. exists (r1 ++ r2). now rewrite H2, H1, app_assoc.
Qed.

Lemma and_then_extends w o k :
  extends w (final o) ->
  (forall w1, extends w1 (final (k w1))) ->
  extends w (final (and_then o k)).
Proof.
  intros Ho Hk. destruct o as [w1|err w1]; simpl in *; [|exact Ho].
  eapply extends_trans; [exact Ho|apply Hk].
Qed.

Lemma call_fired cb w : fired (final (call cb w)) = fired w.
Proof.
  destruct cb as [m|m name| |f]; simpl; try reflexivity.
  - unfold post_epoch_process.
    destruct (key_metric_name (wstate w)); [|reflexivity].
    destruct (dict_get _ _); [|reflexivity].
    destruct (py_gt _ _) as [err|[|]]; reflexivity.
  - destruct (f (wstate w)); reflexivity.
Qed.

Lemma call_all_fired cbs : forall w, fired (final (call_all cbs w)) = fired w.
Proof.
  induction cbs as [|cb cbs IH]; simpl; intros w; [reflexivity|].
  pose proof (call_fired cb w) as Hcb.
  destruct (call cb w) as [w1|err w1]; simpl in *; [|exact Hcb].
  now rewrite IH.
Qed.

Lemma fire_event_fired e ev w :
  fired (final (fire_event e ev w)) = fired w ++ [(ev, wstate w)].
Proof. unfold fire_event. now rewrite call_all_fired. Qed.

Lemma fire_event_extends e ev w : extends w (final (fire_event e ev w)).
Proof. eexists. apply fire_event_fired. Qed.

Lemma run_iteration_extends e b w : extends w (final (run_iteration e b w)).
Proof.
  unfold run_iteration.
  apply (and_then_extends w
           (fire_event e ITERATION_STARTED
              (put_state (set_batch b (wstate w)) w))).
  - destruct (fire_event_extends e ITERATION_STARTED
                (put_state (set_batch b (wstate w)) w)) as [r Hr].
    exists r. exact Hr.
  - intros w1. destruct (process e (wstate w1) b) as [err|[s out]]; simpl.
    + apply extends_refl.
    + destruct (fire_event_extends e ITERATION_COMPLETED
                  (put_state (set_output out s) w1)) as [r Hr].
      exists r. exact Hr.
Qed.

Lemma run_iterations_extends e bs :
  forall w, extends w (final (run_iterations e bs w)).
Proof.
  induction bs as [|b bs IH]; simpl; intros w; [apply extends_refl|].
  apply and_then_extends; [apply run_iteration_extends|exact IH].
Qed.

Lemma run_epoch_extends e data k w :
  extends w (final (run_epoch e data k w)).
Proof.
  unfold run_epoch.
  apply (and_then_extends w
           (fire_event e EPOCH_STARTED (put_state (set_epoch k (wstate w)) w))).
  - destruct (fire_event_extends e EPOCH_STARTED
                (put_state (set_epoch k (wstate w)) w)) as [r Hr].
    exists r. exact Hr.
  - intros w1. apply and_then_extends.
    + apply run_iterations_extends.
    + intros w2. apply fire_event_extends.
Qed.

Lemma run_epochs_extends e data n :
  forall k w, extends w (final (run_epochs e data n k w)).
Proof.
  induction n as [|n IH]; simpl; intros k w; [apply extends_refl|].
  apply and_then_extends; [apply run_epoch_extends|apply IH].
Qed.

Lemma handle_exception_extends e o :
  extends (final o) (final (handle_exception e o)).
Proof.
  destruct o as [w|err w]; simpl; [apply extends_refl|].
  pose proof (fire_event_extends e EXCEPTION_RAISED w) as H.
  destruct (fire_event e EXCEPTION_RAISED w); exact H.
Qed.

(** The first thing [Engine_run] logs is [STARTED], with the epoch length
    already recorded. *)
Lemma Engine_run_log e data n w :
  exists rest,
    fired (final (Engine_run e data n w))
    = fired w ++ (STARTED, set_epoch_length n (wstate w)) :: rest.
Proof.
  unfold Engine_run.
  set (w0 := put_state (set_epoch_length n (wstate w)) w).
  set (body := and_then (fire_event e STARTED w0) _).
  assert (Hbody : extends (final (fire_event e STARTED w0)) (final body)).
  { unfold body.
    destruct (fire_event e STARTED w0) as [w1|err w1]; simpl;
      [|apply extends_refl].
    apply and_then_extends; [apply run_epochs_extends|].
    intros w2. apply fire_event_extends. }
  destruct (extends_trans _ _ _ Hbody (handle_exception_extends e body))
    as [rest Hrest].
  exists rest. rewrite Hrest, fire_event_fired, <- app_assoc. reflexivity.
Qed.

(** C2: on a workflow the constructor built, [_run] first sets
    [state.iteration] to [0] and passes the length of the data loader, a
    non-negative integer, as the epoch length; the engine records it before
    it fires anything.  So the first event this run logs is [STARTED], fired
    on a state with [iteration = 0] and [epoch_length = len(data_loader)],
    and every [EPOCH_STARTED] of the run comes later in the log. *)
Theorem run_resets_iteration_and_resolves_epoch_length
  it dev me amp dl pb km am hs self w :
  snd (__init__ it dev me amp dl pb km am hs) = inr self ->
  exists bs rest,
    data_loader self = VDataLoader bs
    /\ _run self w
       = Engine_run (engine self) (data_loader self)
           (Z.of_nat (List.length bs))
           (put_state (set_iteration 0 (wstate w)) w)
    /\ exists s0,
         fired (final (_run self w)) = fired w ++ (STARTED, s0) :: rest
         /\ s0 = set_epoch_length (Z.of_nat (List.length bs))
                   (set_iteration 0 (wstate w))
         /\ iteration s0 = 0
         /\ epoch_length s0 = Z.of_nat (List.length bs)
         /\ 0 <= epoch_length s0.
Proof.
  intros H. apply init_inv in H as [Hok ->].
  unfold init_ok, base_ok in Hok.
  repeat (apply andb_prop in Hok as [Hok ?]).
  destruct dl as [| | | | | |bs]; try discriminate.
  assert (Erun : _run (built it dev me amp (VDataLoader bs) pb km am hs) w
                 = Engine_run
                     (engine (built it dev me amp (VDataLoader bs) pb km am hs))
                     (VDataLoader bs) (Z.of_nat (List.length bs))
                     (put_state (set_iteration 0 (wstate w)) w))
    by reflexivity.
  destruct (Engine_run_log
              (engine (built it dev me amp (VDataLoader bs) pb km am hs))
              (VDataLoader bs) (Z.of_nat (List.length bs))
              (put_state (set_iteration 0 (wstate w)) w)) as [rest Hrest].
  exists bs, rest. split; [reflexivity|]. split; [exact Erun|].
  eexists. split; [rewrite Erun; exact Hrest|].
  split; [reflexivity|]. split; [reflexivity|]. split; [reflexivity|].
  simpl. lia.
Qed.

Lemma run_resets_iteration_and_resolves_epoch_length_witness :
  exists bs rest,
    data_loader
      (built counting_step cpu (VInt 2) (VBool false) three_batches
         identity_batch (ODict [("mean_dice", mean_dice)]) (OVal VNone)
         (OVal VNone)) = VDataLoader bs
    /\ exists s0,
         fired
           (final
              (_run
                 (built counting_step cpu (VInt 2) (VBool false)
                    three_batches identity_batch
                    (ODict [("mean_dice", mean_dice)]) (OVal VNone)
                    (OVal VNone))
                 (mkWorld (state_after_epoch 2 (VInt 6) (VInt 6) 2)
                    [] [] [])))
         = [] ++ (STARTED, s0) :: rest
         /\ iteration s0 = 0
         /\ epoch_length s0 = Z.of_nat (List.length bs).
Proof.
  destruct (run_resets_iteration_and_resolves_epoch_length counting_step cpu
              (VInt 2) (VBool false) three_batches identity_batch
              (ODict [("mean_dice", mean_dice)]) (OVal VNone) (OVal VNone)
              _ (mkWorld (state_after_epoch 2 (VInt 6) (VInt 6) 2) [] [] [])
              eq_refl)
    as [bs [rest [Hdl [_ [s0 [Hlog [_ [Hit [Hlen _]]]]]]]]].
  exists bs, rest. split; [exact Hdl|].
  exists s0. split; [exact Hlog|]. split; [exact Hit|exact Hlen].
Defined.

(** ** The mixed-precision flag *)

Lemma Metric_attach_map_state g m e name :
  Metric_attach m (map_state g e) name = map_state g (Metric_attach m e name).
Proof.
  unfold Metric_attach, map_state, with_state, Engine_on. simpl.
  destruct (has_update m _); reflexivity.
Qed.

Lemma attach_metric_set_map_state g ms : forall e,
  fold_left (fun e item => Metric_attach (snd item) e (fst item)) ms
    (map_state g e)
  = map_state g
      (fold_left (fun e item => Metric_attach (snd item) e (fst item)) ms e).
Proof.
  induction ms as [|[name m] ms IH]; simpl; intros e; [reflexivity|].
  now rewrite Metric_attach_map_state, IH.
Qed.

Lemma Handler_attach_map_state g h e :
  Handler_attach h (map_state g e) = map_state g (Handler_attach h e).
Proof.
  unfold Handler_attach. revert e.
  induction (registrations h) as [|r rs IH]; simpl; intros e; [reflexivity|].
  now rewrite <- IH.
Qed.

Lemma attach_handler_list_map_state g hs : forall e,
  fold_left (fun e handler => Handler_attach handler e) hs (map_state g e)
  = map_state g (fold_left (fun e handler => Handler_attach handler e) hs e).
Proof.
  induction hs as [|h hs IH]; simpl; intros e; [reflexivity|].
  now rewrite Handler_attach_map_state, IH.
Qed.

Lemma with_metrics_amp a name ms e :
  with_metrics name ms (map_state (set_amp a) e)
  = map_state (set_amp a) (with_metrics name ms e).
Proof.
  unfold with_metrics.
  change (with_state
            (set_key_metric_name (Some name)
               (state (map_state (set_amp a) e)))
            (map_state (set_amp a) e))
    with (map_state (set_amp a)
            (with_state (set_key_metric_name (Some name) (state e)) e)).
  rewrite attach_metric_set_map_state. reflexivity.
Qed.

Lemma attach_handlers_map_state g hs e :
  attach_handlers hs (map_state g e)
  = result_map (map_state g) (attach_handlers hs e).
Proof.
  unfold attach_handlers.
  destruct (is_None hs); simpl; [reflexivity|].
  destruct (py_len hs) as [err|n]; simpl; [reflexivity|].
  destruct (0 <? n); [|reflexivity].
  destruct (isinstance_list_or_tuple hs); simpl; [|reflexivity].
  now rewrite attach_handler_list_map_state.
Qed.

Lemma attach_metrics_amp a km am e :
  attach_metrics km am (map_state (set_amp a) e)
  = result_map (map_state (set_amp a)) (attach_metrics km am e).
Proof.
  unfold attach_metrics.
  destruct (isinstance_dict km); simpl; [|reflexivity].
  destruct (list_first (dict_keys (dict_items km))) as [err|name]; simpl;
    [reflexivity|].
  destruct (merge_additional (dict_items km) am) as [err|ms]; simpl;
    [reflexivity|].
  unfold ret. f_equal. apply (with_metrics_amp a name ms e).
Qed.

Section AmpBlindRun.
Variable e : Engine.
Variable a : PyVal.
Hypothesis blind : amp_blind e.

Lemma call_amp cb w :
  (forall f, cb = handler_cb f -> amp_blind_fn f) ->
  call cb (amp_world a w) = amp_outcome a (call cb w).
Proof.
  intros Hcb. destruct cb as [m|m name| |f]; simpl; try reflexivity.
  - unfold post_epoch_process. simpl.
    destruct (key_metric_name (wstate w)); [|reflexivity].
    destruct (dict_get _ _); [|reflexivity].
    destruct (py_gt _ _) as [err|[|]]; reflexivity.
  - rewrite (Hcb f eq_refl a (wstate w)).
    destruct (f (wstate w)); reflexivity.
Qed.

Lemma call_all_amp cbs : forall w,
  (forall f, In (handler_cb f) cbs -> amp_blind_fn f) ->
  call_all cbs (amp_world a w) = amp_outcome a (call_all cbs w).
Proof.
  induction cbs as [|cb cbs IH]; simpl; intros w Hcbs; [reflexivity|].
  rewrite call_amp by (intros f ->; apply Hcbs; now left).
  destruct (call cb w) as [w1|err w1]; simpl; [|reflexivity].
  apply IH. intros f Hin. apply Hcbs. now right.
Qed.

Lemma fire_event_amp ev w :
  fire_event e ev (amp_world a w) = amp_outcome a (fire_event e ev w).
Proof.
  unfold fire_event.
  replace (log_fired ev (amp_world a w)) with (amp_world a (log_fired ev w)).
  - apply call_all_amp. intros f Hin. apply handlers_for_In in Hin.
    exact (proj2 blind ev f Hin).
  - unfold log_fired, amp_world. simpl. now rewrite map_app.
Qed.

Lemma and_then_amp o k k' :
  (forall w, k' (amp_world a w) = amp_outcome a (k w)) ->
  and_then (amp_outcome a o) k' = amp_outcome a (and_then o k).
Proof. intros Hk. destruct o as [w|err w]; simpl; [apply Hk|reflexivity]. Qed.

Lemma run_iteration_amp b w :
  run_iteration e b (amp_world a w) = amp_outcome a (run_iteration e b w).
Proof.
  unfold run_iteration.
  change (put_state (set_batch b (wstate (amp_world a w))) (amp_world a w))
    with (amp_world a (put_state (set_batch b (wstate w)) w)).
  rewrite fire_event_amp. apply and_then_amp. intros w1.
  cbn [wstate amp_world]. rewrite (proj1 blind a (wstate w1) b).
  destruct (process e (wstate w1) b) as [err|[s out]]; [reflexivity|].
  change (put_state (set_output out (set_amp a s)) (amp_world a w1))
    with (amp_world a (put_state (set_output out s) w1)).
  apply fire_event_amp.
Qed.

Lemma run_iterations_amp bs : forall w,
  run_iterations e bs (amp_world a w)
  = amp_outcome a (run_iterations e bs w).
Proof.
  induction bs as [|b bs IH]; simpl; intros w; [reflexivity|].
  rewrite run_iteration_amp. apply and_then_amp. exact IH.
Qed.

Lemma run_epoch_amp data k w :
  run_epoch e data k (amp_world a w) = amp_outcome a (run_epoch e data k w).
Proof.
  unfold run_epoch.
  change (put_state (set_epoch k (wstate (amp_world a w))) (amp_world a w))
    with (amp_world a (put_state (set_epoch k (wstate w)) w)).
  rewrite fire_event_amp. apply and_then_amp. intros w1.
  change (epoch_length (wstate (amp_world a w1)))
    with (epoch_length (wstate w1)).
  rewrite run_iterations_amp. apply and_then_amp. intros w2.
  apply fire_event_amp.
Qed.

Lemma run_epochs_amp data n : forall k w,
  run_epochs e data n k (amp_world a w)
  = amp_outcome a (run_epochs e data n k w).
Proof.
  induction n as [|n IH]; simpl; intros k w; [reflexivity|].
  rewrite run_epoch_amp. apply and_then_amp. apply IH.
Qed.

Lemma handle_exception_amp o :
  handle_exception e (amp_outcome a o) = amp_outcome a (handle_exception e o).
Proof.
  destruct o as [w|err w]; simpl; [reflexivity|].
  rewrite fire_event_amp.
  destruct (fire_event e EXCEPTION_RAISED w); reflexivity.
Qed.

Lemma Engine_run_amp data n w :
  Engine_run e data n (amp_world a w) = amp_outcome a (Engine_run e data n w).
Proof.
  unfold Engine_run.
  change (put_state (set_epoch_length n (wstate (amp_world a w)))
            (amp_world a w))
    with (amp_world a (put_state (set_epoch_length n (wstate w)) w)).
  rewrite fire_event_amp.
  rewrite <- handle_exception_amp. f_equal.
  apply and_then_amp. intros w1.
  change (max_epochs (wstate (amp_world a w1))) with (max_epochs (wstate w1)).
  rewrite run_epochs_amp. apply and_then_amp. intros w2.
  apply fire_event_amp.
Qed.
End AmpBlindRun.

Lemma and_then_ext o k k' :
  (forall w, k w = k' w) -> and_then o k = and_then o k'.
Proof. intros H. destruct o; simpl; [apply H|reflexivity]. Qed.

(** The run uses the operation and the event table of the engine, not the
    state stored in it at construction. *)
Section SameTable.
Variables e e' : Engine.
Hypothesis same_process : process e' = process e.
Hypothesis same_table : event_handlers e' = event_handlers e.

Lemma fire_event_same ev w : fire_event e' ev w = fire_event e ev w.
Proof. unfold fire_event. now rewrite same_table. Qed.

Lemma run_iteration_same b w : run_iteration e' b w = run_iteration e b w.
Proof.
  unfold run_iteration. rewrite fire_event_same. apply and_then_ext.
  intros w1. rewrite same_process.
  destruct (process e (wstate w1) b) as [err|[s out]]; [reflexivity|].
  apply fire_event_same.
Qed.

Lemma run_iterations_same bs : forall w,
  run_iterations e' bs w = run_iterations e bs w.
Proof.
  induction bs as [|b bs IH]; simpl; intros w; [reflexivity|].
  rewrite run_iteration_same. apply and_then_ext. exact IH.
Qed.

Lemma run_epoch_same data k w : run_epoch e' data k w = run_epoch e data k w.
Proof.
  unfold run_epoch. rewrite fire_event_same. apply and_then_ext.
  intros w1. rewrite run_iterations_same. apply and_then_ext.
  intros w2. apply fire_event_same.
Qed.

Lemma run_epochs_same data n : forall k w,
  run_epochs e' data n k w = run_epochs e data n k w.
Proof.
  induction n as [|n IH]; simpl; intros k w; [reflexivity|].
  rewrite run_epoch_same. apply and_then_ext. apply IH.
Qed.

Lemma Engine_run_same data n w :
  Engine_run e' data n w = Engine_run e data n w.
Proof.
  unfold Engine_run.
  replace (and_then (fire_event e' STARTED _) _)
    with (and_then
            (fire_event e STARTED
               (put_state (set_epoch_length n (wstate w)) w))
            (fun w1 =>
               and_then
                 (run_epochs e data (Z.to_nat (max_epochs (wstate w1))) 1 w1)
                 (fire_event e COMPLETED))).
  - destruct (and_then _ _) as [w1|err w1]; simpl; [reflexivity|].
    now rewrite fire_event_same.
  - rewrite fire_event_same. apply and_then_ext. intros w1.
    rewrite run_epochs_same. apply and_then_ext. intros w2.
    symmetry. apply fire_event_same.
Qed.
End SameTable.

(** C9, as stated, fails: the same construction prints a notice with a
    truthy [amp] and prints nothing with a falsy one. *)
Lemma amp_changes_what_the_constructor_prints :
  fst (__init__ _iteration cpu (VInt 1) (VBool true) three_batches
         identity_batch (OVal VNone) (OVal VNone) (OVal VNone))
  = [amp_notice]
  /\ fst (__init__ _iteration cpu (VInt 1) (VBool false) three_batches
            identity_batch (OVal VNone) (OVal VNone) (OVal VNone))
     = []
  /\ fst (__init__ _iteration cpu (VInt 1) (VBool true) three_batches
            identity_batch (OVal VNone) (OVal VNone) (OVal VNone))
     <> fst (__init__ _iteration cpu (VInt 1) (VBool false) three_batches
               identity_batch (OVal VNone) (OVal VNone) (OVal VNone)).
Proof. split; [reflexivity|]. split; [reflexivity|]. discriminate. Qed.

(** C9 (amended): the flag is stored in the state and, when truthy, makes
    the constructor print one notice; it has no other effect.  Two
    constructions that differ in [amp] only raise the same exception or
    build workflows that differ in [state.amp] only; and as long as the
    handlers and the iteration operation make no use of [state.amp], the
    runs of two such workflows go through the same steps: same outcome,
    same events, same printed lines, same metric values, the states
    differing in [amp] only. *)
Theorem amp_is_stored_and_announced_only
  it dev me dl pb km am hs a1 a2 :
  fst (__init__ it dev me a1 dl pb km am hs)
  = (if truthy a1 then [amp_notice] else [])
  /\ snd (__init__ it dev me a2 dl pb km am hs)
     = match snd (__init__ it dev me a1 dl pb km am hs) with
       | inl err => inl err
       | inr self => inr (amp_workflow a2 self)
       end
  /\ forall self,
       snd (__init__ it dev me a1 dl pb km am hs) = inr self ->
       amp_blind (engine self) ->
       forall w,
         _run (amp_workflow a2 self) (amp_world a2 w)
         = amp_outcome a2 (_run self w).
Proof.
  split; [reflexivity|]. split.
  - unfold __init__. cbn [snd].
    destruct (isinstance_device dev); simpl; [|reflexivity].
    destruct (isinstance_int me); simpl; [|reflexivity].
    destruct (isinstance_DataLoader dl); simpl; [|reflexivity].
    change (mkEngine it (initial_state dev me a2) [])
      with (map_state (set_amp a2)
              (mkEngine it (initial_state dev me a1) [])).
    set (e0 := mkEngine it (initial_state dev me a1) []).
    assert (E : (if negb (is_None km)
                 then attach_metrics km am (map_state (set_amp a2) e0)
                 else ret (map_state (set_amp a2) e0))
                = result_map (map_state (set_amp a2))
                    (if negb (is_None km) then attach_metrics km am e0
                     else ret e0)).
    { destruct (is_None km); simpl; [reflexivity|].
      apply attach_metrics_amp. }
    rewrite E.
    destruct (if negb (is_None km) then attach_metrics km am e0 else ret e0)
      as [err|e1]; simpl; [reflexivity|].
    rewrite attach_handlers_map_state.
    destruct (attach_handlers hs e1) as [err|e2]; reflexivity.
  - intros self Hself Hblind w.
    unfold _run. cbn [data_loader amp_workflow engine].
    change (put_state (set_iteration 0 (wstate (amp_world a2 w)))
              (amp_world a2 w))
      with (amp_world a2 (put_state (set_iteration 0 (wstate w)) w)).
    destruct (val_len (data_loader self)) as [err|n]; [reflexivity|].
    rewrite (Engine_run_same (engine self)
               (map_state (set_amp a2) (engine self)) eq_refl eq_refl).
    apply Engine_run_amp. exact Hblind.
Qed.

Lemma amp_is_stored_and_announced_only_witness :
  _run (amp_workflow (VBool true) plain_workflow)
    (amp_world (VBool true) (fresh plain_workflow))
  = amp_outcome (VBool true) (_run plain_workflow (fresh plain_workflow)).
Proof.
  apply (proj2 (proj2 (amp_is_stored_and_announced_only counting_step cpu
                         (VInt 2) three_batches identity_batch
                         (ODict [("mean_dice", mean_dice)]) (OVal VNone)
                         (OList [timer_handler]) (VBool false) (VBool true)))
           plain_workflow eq_refl).
  split.
  - intros a s b. reflexivity.
  - intros ev f Hin. simpl in Hin.
    repeat (destruct Hin as [Hin|Hin]; [try discriminate|]);
      try contradiction.
    injection Hin as _ <-. intros a s. reflexivity.
Defined.

(** ** A complete run *)

(** Two epochs over three batches, without metrics or handlers: the events
    fire in the documented order and six iterations are counted. *)
Example two_epochs_three_batches :
  let self :=
    built counting_step cpu (VInt 2) (VBool false) three_batches
      identity_batch (OVal VNone) (OVal VNone) (OVal VNone) in
  let w := final (_run self (fresh self)) in
  map fst (fired w)
  = [STARTED;
     EPOCH_STARTED;
     ITERATION_STARTED; ITERATION_COMPLETED;
     ITERATION_STARTED; ITERATION_COMPLETED;
     ITERATION_STARTED; ITERATION_COMPLETED;
     EPOCH_COMPLETED;
     EPOCH_STARTED;
     ITERATION_STARTED; ITERATION_COMPLETED;
     ITERATION_STARTED; ITERATION_COMPLETED;
     ITERATION_STARTED; ITERATION_COMPLETED;
     EPOCH_COMPLETED;
     COMPLETED]
  /\ iteration (wstate w) = 6
  /\ metrics (wstate w) = [].
Proof. repeat split; reflexivity. Qed.

(** With a key metric that grows from epoch to epoch, each epoch is a new
    best; with one that stays the same, only the first epoch is. *)
Example best_metric_over_a_run :
  let growing :=
    built counting_step cpu (VInt 2) (VBool false) three_batches
      identity_batch (ODict [("mean_dice", mean_dice)]) (OVal VNone)
      (OVal VNone) in
  let constant :=
    built counting_step cpu (VInt 2) (VBool false) three_batches
      identity_batch (ODict [("accuracy", accuracy)]) (OVal VNone)
      (OVal VNone) in
  let w1 := final (_run growing (fresh growing)) in
  let w2 := final (_run constant (fresh constant)) in
  (best_metric (wstate w1) = VInt 6 /\ best_metric_epoch (wstate w1) = 2
   /\ stdout w1 = [GotNewBestMetric "mean_dice" (VInt 3);
                   GotNewBestMetric "mean_dice" (VInt 6)])
  /\ (best_metric (wstate w2) = VFloat (1 # 2)
      /\ best_metric_epoch (wstate w2) = 1
      /\ stdout w2 = [GotNewBestMetric "accuracy" (VFloat (1 # 2))]).
Proof. repeat split; reflexivity. Qed.


(** * Further properties *)

(** ** The outcome of the constructor *)

Lemma zero_length_is_empty o :
  py_len o = inr 0 -> dict_items o = [] /\ elements o = [].
Proof.
  destruct o as [v|m|h|items|items|items]; simpl; intros H;
    try (split; reflexivity); try discriminate;
    injection H as H; destruct items; simpl in *;
    try (split; reflexivity); lia.
Qed.

Lemma py_len_nonneg o n : py_len o = inr n -> 0 <= n.
Proof.
  destruct o as [[]|m|h|items|items|items]; simpl; intros H;
    try discriminate; injection H as <-; lia.
Qed.

Lemma merge_additional_outcome ms am :
  merge_additional ms am
  = match guard_failure isinstance_dict
            "additional_metrics must be a dict object." am with
    | Some err => inl err
    | None => ret (dict_update ms (dict_items am))
    end.
Proof.
  unfold merge_additional, guard_failure.
  destruct (is_None am) eqn:HN; simpl.
  - destruct am as [[]| | | | |]; try discriminate. reflexivity.
  - destruct (py_len am) as [err|n] eqn:Hlen; simpl; [reflexivity|].
    destruct (0 <? n) eqn:Hn; simpl.
    + destruct (isinstance_dict am); reflexivity.
    + apply Z.ltb_ge in Hn. pose proof (py_len_nonneg am n Hlen).
      assert (n = 0) as -> by lia.
      now rewrite (proj1 (zero_length_is_empty am Hlen)).
Qed.

Lemma attach_handlers_outcome hs e :
  attach_handlers hs e
  = match guard_failure isinstance_list_or_tuple
            "handlers must be a chain." hs with
    | Some err => inl err
    | None =>
        ret (fold_left (fun e handler => Handler_attach handler e)
               (elements hs) e)
    end.
Proof.
  unfold attach_handlers, guard_failure.
  destruct (is_None hs) eqn:HN; simpl.
  - destruct hs as [[]| | | | |]; try discriminate. reflexivity.
  - destruct (py_len hs) as [err|n] eqn:Hlen; simpl; [reflexivity|].
    destruct (0 <? n) eqn:Hn; simpl.
    + destruct (isinstance_list_or_tuple hs); reflexivity.
    + apply Z.ltb_ge in Hn. pose proof (py_len_nonneg hs n Hlen).
      assert (n = 0) as -> by lia.
      now rewrite (proj2 (zero_length_is_empty hs Hlen)).
Qed.

Lemma attach_metrics_outcome km am e :
  is_None km = false ->
  attach_metrics km am e
  = match metrics_failure km am with
    | Some err => inl err
    | None => ret (with_metrics (first_key km) (working_metrics km am) e)
    end.
Proof.
  intros HN. unfold attach_metrics, metrics_failure. rewrite HN.
  destruct (isinstance_dict km) eqn:Hd; simpl; [|reflexivity].
  destruct km as [v|m0|h0|items|items|items]; try discriminate.
  destruct items as [|[name m] rest]; simpl; [reflexivity|].
  rewrite merge_additional_outcome.
  destruct (guard_failure _ _ am); reflexivity.
Qed.

Lemma init_outcome it dev me amp dl pb km am hs :
  snd (__init__ it dev me amp dl pb km am hs)
  = match first_failure dev me dl km am hs with
    | Some err => inl err
    | None => inr (built it dev me amp dl pb km am hs)
    end.
Proof.
  unfold first_failure.
  destruct (isinstance_device dev) eqn:Hdev; cbn [negb];
    [|unfold __init__; cbn [snd]; now rewrite Hdev].
  destruct (isinstance_int me) eqn:Hme; cbn [negb];
    [|unfold __init__; cbn [snd]; rewrite Hdev, Hme; reflexivity].
  destruct (isinstance_DataLoader dl) eqn:Hdl; cbn [negb];
    [|unfold __init__; cbn [snd]; rewrite Hdev, Hme, Hdl; reflexivity].
  rewrite init_base_ok by (unfold base_ok; now rewrite Hdev, Hme, Hdl).
  unfold built.
  destruct (is_None km) eqn:HN; simpl.
  - unfold metrics_failure. rewrite HN.
    rewrite attach_handlers_outcome.
    destruct (guard_failure _ _ hs); reflexivity.
  - rewrite attach_metrics_outcome by assumption.
    destruct (metrics_failure km am); simpl; [reflexivity|].
    rewrite attach_handlers_outcome.
    destruct (guard_failure _ _ hs); reflexivity.
Qed.

(** X1: the constructor raises the exception of the first check that
    fails, in program order (device, epoch count, data loader, type of
    [key_metric], its first key, length and type of [additional_metrics],
    length and type of [handlers]), and builds the workflow exactly when no
    check fails; what it prints does not depend on the outcome. *)
Theorem constructor_outcome it dev me amp dl pb km am hs :
  __init__ it dev me amp dl pb km am hs
  = ((if truthy amp then [amp_notice] else []),
     match first_failure dev me dl km am hs with
     | Some err => inl err
     | None => inr (built it dev me amp dl pb km am hs)
     end).
Proof.
  rewrite (surjective_pairing (__init__ _ _ _ _ _ _ _ _ _)).
  f_equal. apply init_outcome.
Qed.

(** X2: an [additional_metrics] or a [handlers] argument of length zero,
    whatever its type, is treated as if it were absent: the constructor
    prints and returns what it does with [None] in its place. *)
Theorem empty_optional_arguments_count_as_absent
  it dev me amp dl pb km am hs :
  (py_len am = inr 0 ->
   __init__ it dev me amp dl pb km am hs
   = __init__ it dev me amp dl pb km (OVal VNone) hs)
  /\ (py_len hs = inr 0 ->
      __init__ it dev me amp dl pb km am hs
      = __init__ it dev me amp dl pb km am (OVal VNone)).
Proof.
  split; intros Hlen; (apply injective_projections; [reflexivity|]);
    rewrite !init_outcome.
  - destruct (zero_length_is_empty am Hlen) as [Hitems _].
    assert (Hg : forall msg,
               guard_failure isinstance_dict msg am
               = guard_failure isinstance_dict msg (OVal VNone)).
    { intros msg. unfold guard_failure. rewrite Hlen. simpl.
      now destruct (is_None am). }
    unfold first_failure, metrics_failure, built, working_metrics.
    rewrite Hg, Hitems. reflexivity.
  - destruct (zero_length_is_empty hs Hlen) as [_ Helems].
    assert (Hg : forall msg,
               guard_failure isinstance_list_or_tuple msg hs
               = guard_failure isinstance_list_or_tuple msg (OVal VNone)).
    { intros msg. unfold guard_failure. rewrite Hlen. simpl.
      now destruct (is_None hs). }
    unfold first_failure, built. rewrite Hg, Helems. reflexivity.
Qed.

Lemma empty_optional_arguments_count_as_absent_witness :
  __init__ counting_step cpu (VInt 2) (VBool false) three_batches
    identity_batch (ODict [("mean_dice", mean_dice)]) (OTuple [])
    (OVal (VStr ""))
  = __init__ counting_step cpu (VInt 2) (VBool false) three_batches
      identity_batch (ODict [("mean_dice", mean_dice)]) (OVal VNone)
      (OVal (VStr ""))
  /\ __init__ counting_step cpu (VInt 2) (VBool false) three_batches
       identity_batch (ODict [("mean_dice", mean_dice)]) (OTuple [])
       (OVal (VStr ""))
     = __init__ counting_step cpu (VInt 2) (VBool false) three_batches
         identity_batch (ODict [("mean_dice", mean_dice)]) (OTuple [])
         (OVal VNone).
Proof.
  split.
  - apply (proj1 (empty_optional_arguments_count_as_absent counting_step
                    cpu (VInt 2) (VBool false) three_batches identity_batch
                    (ODict [("mean_dice", mean_dice)]) (OTuple [])
                    (OVal (VStr "")))).
    reflexivity.
  - apply (proj2 (empty_optional_arguments_count_as_absent counting_step
                    cpu (VInt 2) (VBool false) three_batches identity_batch
                    (ODict [("mean_dice", mean_dice)]) (OTuple [])
                    (OVal (VStr "")))).
    reflexivity.
Defined.

(** X3: a workflow that was built holds the arguments it was given and a
    state with the defaults of the constructor: counters at zero, no epoch
    length yet, no metric value, best-metric bookkeeping at [-1].  Its key
    metric name is the first key of [key_metric], and is null exactly when
    no key metric was given. *)
Theorem constructed_workflow_state it dev me amp dl pb km am hs self :
  snd (__init__ it dev me amp dl pb km am hs) = inr self ->
  state (engine self)
  = set_key_metric_name
      (if is_None km then None else Some (first_key km))
      (initial_state dev me amp)
  /\ (key_metric_name (state (engine self)) = None <-> is_None km = true)
  /\ (iteration (state (engine self)) = 0
      /\ epoch (state (engine self)) = 0
      /\ epoch_length (state (engine self)) = -1
      /\ metrics (state (engine self)) = []
      /\ best_metric (state (engine self)) = VInt (-1)
      /\ best_metric_epoch (state (engine self)) = -1)
  /\ process (engine self) = it
  /\ data_loader self = dl
  /\ prepare_batch self = pb.
Proof.
  intros H. apply init_inv in H as [_ ->].
  assert (Hp : process (engine (built it dev me amp dl pb km am hs)) = it).
  { unfold built. cbn [engine].
    match goal with
    | |- context [fold_left _ (elements hs) ?e1] =>
        destruct (attach_handler_list_table (elements hs) e1) as [_ [-> _]]
    end.
    destruct (is_None km); [reflexivity|].
    unfold with_metrics, Engine_on. cbn [process].
    match goal with
    | |- context [fold_left _ ?ms ?e] =>
        destruct (attach_metric_set_frame ms e) as [-> _]
    end.
    reflexivity. }
  rewrite built_state.
  destruct (is_None km); repeat split; try reflexivity; try exact Hp;
    try discriminate.
Qed.

Lemma constructed_workflow_state_witness :
  key_metric_name
    (state (engine (built counting_step cpu (VInt 2) (VBool false)
                      three_batches identity_batch
                      (ODict [("mean_dice", mean_dice)]) (OVal VNone)
                      (OList [stats_handler]))))
  = None
  <-> is_None (ODict [("mean_dice", mean_dice)]) = true.
Proof.
  apply (constructed_workflow_state counting_step cpu (VInt 2) (VBool false)
           three_batches identity_batch (ODict [("mean_dice", mean_dice)])
           (OVal VNone) (OList [stats_handler]) _ eq_refl).
Defined.

(** ** The best-metric callback, further *)

Lemma state_eta s :
  set_best_metric_epoch (best_metric_epoch s)
    (set_best_metric (best_metric s) s) = s.
Proof. now destruct s. Qed.

(** X4: whatever the state, the best-metric callback leaves everything but
    [best_metric], [best_metric_epoch] and the console alone: the other
    fields of the state, what the metrics accumulated and the event log are
    kept; it prints at most one line; and when it raises it has changed
    nothing at all. *)
Theorem best_metric_callback_frame w :
  accumulated (final (post_epoch_process w)) = accumulated w
  /\ fired (final (post_epoch_process w)) = fired w
  /\ (exists b e,
        wstate (final (post_epoch_process w))
        = set_best_metric_epoch e (set_best_metric b (wstate w)))
  /\ (stdout (final (post_epoch_process w)) = stdout w
      \/ exists l, stdout (final (post_epoch_process w)) = stdout w ++ [l])
  /\ forall err w', post_epoch_process w = Raised err w' -> w' = w.
Proof.
  unfold post_epoch_process.
  destruct (key_metric_name (wstate w)) as [name|].
  2:{ simpl. repeat split; try reflexivity.
      - exists (best_metric (wstate w)), (best_metric_epoch (wstate w)).
        now rewrite state_eta.
      - now left.
      - discriminate. }
  destruct (dict_get name (metrics (wstate w))) as [v|].
  2:{ simpl. repeat split; try reflexivity.
      - exists (best_metric (wstate w)), (best_metric_epoch (wstate w)).
        now rewrite state_eta.
      - now left.
      - now intros err w' [= _ <-]. }
  destruct (py_gt v (best_metric (wstate w))) as [err|[|]].
  - simpl. repeat split; try reflexivity.
    + exists (best_metric (wstate w)), (best_metric_epoch (wstate w)).
      now rewrite state_eta.
    + now left.
    + now intros err' w' [= _ <-].
  - simpl. repeat split; try reflexivity.
    + exists v, (epoch (wstate w)). reflexivity.
    + right. now exists (GotNewBestMetric name v).
    + discriminate.
  - simpl. repeat split; try reflexivity.
    + exists (best_metric (wstate w)), (best_metric_epoch (wstate w)).
      now rewrite state_eta.
    + now left.
    + discriminate.
Qed.

Lemma best_metric_callback_frame_witness :
  fired
    (final
       (post_epoch_process
          (mkWorld (state_after_epoch 3 VNone (VFloat (8 # 10)) 1)
             [] [] [(STARTED, state_after_epoch 0 VNone VNone 0)])))
  = [(STARTED, state_after_epoch 0 VNone VNone 0)]
  /\ final
       (post_epoch_process
          (mkWorld (state_after_epoch 3 VNone (VFloat (8 # 10)) 1)
             [] [] [(STARTED, state_after_epoch 0 VNone VNone 0)]))
     = mkWorld (state_after_epoch 3 VNone (VFloat (8 # 10)) 1)
         [] [] [(STARTED, state_after_epoch 0 VNone VNone 0)].
Proof.
  destruct (best_metric_callback_frame
              (mkWorld (state_after_epoch 3 VNone (VFloat (8 # 10)) 1)
                 [] [] [(STARTED, state_after_epoch 0 VNone VNone 0)]))
    as [_ [Hfired [_ [_ Hraise]]]].
  split; [exact Hfired|].
  exact (Hraise TypeError _ eq_refl).
Defined.

(** X5: on numbers, the best-metric callback leaves in [best_metric] the
    greater of the former best and the current value: the new best is one
    of the two, is not below the former best and is not below the current
    value. *)
Theorem best_metric_is_the_maximum w name v x y :
  key_metric_name (wstate w) = Some name ->
  dict_get name (metrics (wstate w)) = Some v ->
  as_number v = Some x ->
  as_number (best_metric (wstate w)) = Some y ->
  exists w' z,
    post_epoch_process w = Normal w'
    /\ as_number (best_metric (wstate w')) = Some z
    /\ (y <= z)%Q /\ (x <= z)%Q
    /\ (best_metric (wstate w') = v
        \/ best_metric (wstate w') = best_metric (wstate w)).
Proof.
  intros Hname Hv Hx Hy.
  unfold post_epoch_process.
  rewrite Hname, Hv, (py_gt_numbers _ _ _ _ Hx Hy). unfold ret.
  destruct (Qlt_le_dec y x) as [Hlt|Hle].
  - rewrite (Qlt_bool_true _ _ Hlt). eexists. exists x.
    split; [reflexivity|]. simpl.
    split; [exact Hx|]. split; [now apply Qlt_le_weak|].
    split; [apply Qle_refl|now left].
  - rewrite (Qlt_bool_false _ _ Hle). exists w, y.
    split; [reflexivity|]. split; [exact Hy|].
    split; [apply Qle_refl|]. split; [exact Hle|now right].
Qed.

Lemma best_metric_is_the_maximum_witness :
  exists w' z,
    post_epoch_process
      (mkWorld (state_after_epoch 3 (VFloat (9 # 10)) (VFloat (8 # 10)) 1)
         [] [] [])
    = Normal w'
    /\ as_number (best_metric (wstate w')) = Some z
    /\ (8 # 10 <= z)%Q /\ (9 # 10 <= z)%Q.
Proof.
  destruct (best_metric_is_the_maximum
              (mkWorld
                 (state_after_epoch 3 (VFloat (9 # 10)) (VFloat (8 # 10)) 1)
                 [] [] [])
              "mean_dice" (VFloat (9 # 10)) (9 # 10) (8 # 10)
              eq_refl eq_refl eq_refl eq_refl)
    as [w' [z [E [Hz [Hy [Hx _]]]]]].
  exists w', z. repeat split; assumption.
Defined.

Lemma String_ltb_irrefl s : String.ltb s s = false.
Proof.
  unfold String.ltb. pose proof (String.compare_antisym s s) as H.
  destruct (String.compare s s); try reflexivity. discriminate.
Qed.

Lemma py_gt_irrefl v b : py_gt v b = inr true -> py_gt v v = inr false.
Proof.
  assert (Hnum : forall x, as_number v = Some x -> py_gt v v = inr false).
  { intros x Hx. rewrite (py_gt_numbers v v x x Hx Hx). unfold ret.
    f_equal. apply Qlt_bool_false. apply Qle_refl. }
  destruct v as [|bv|n|x|s|d|bs];
    try (intros _; eapply Hnum; reflexivity);
    try (unfold py_gt; simpl; discriminate).
  intros _. unfold py_gt. simpl. unfold ret. f_equal.
  apply String_ltb_irrefl.
Qed.

(** X6: the best-metric callback is idempotent.  Run a second time on the
    world the first run left, with no reduction in between, it changes
    nothing, since a tie is no improvement: two runs in a row end as one
    run does. *)
Theorem best_metric_callback_idempotent w :
  and_then (post_epoch_process w) post_epoch_process = post_epoch_process w.
Proof.
  unfold post_epoch_process at 1 3.
  destruct (key_metric_name (wstate w)) as [name|] eqn:Hname.
  2:{ simpl. unfold post_epoch_process. now rewrite Hname. }
  destruct (dict_get name (metrics (wstate w))) as [v|] eqn:Hv;
    [|reflexivity].
  destruct (py_gt v (best_metric (wstate w))) as [err|[|]] eqn:Hgt;
    [reflexivity| |].
  - simpl. unfold post_epoch_process. simpl.
    rewrite Hname, Hv, (py_gt_irrefl _ _ Hgt). reflexivity.
  - simpl. unfold post_epoch_process. now rewrite Hname, Hv, Hgt.
Qed.

(** ** Where the constructor puts its own callbacks *)

Lemma Metric_attach_entries m e name :
  exists extra,
    event_handlers (Metric_attach m e name) = event_handlers e ++ extra
    /\ forallb is_metric_entry extra = true.
Proof.
  unfold Metric_attach. destruct (has_update m _).
  - exists [(EPOCH_COMPLETED, metric_completed m name)]. now split.
  - exists [(EPOCH_COMPLETED, metric_completed m name);
            (ITERATION_COMPLETED, metric_iteration_completed m)].
    simpl. rewrite <- app_assoc. now split.
Qed.

Lemma attach_metric_set_entries ms : forall e,
  exists extra,
    event_handlers
      (fold_left (fun e item => Metric_attach (snd item) e (fst item)) ms e)
    = event_handlers e ++ extra
    /\ forallb is_metric_entry extra = true.
Proof.
  induction ms as [|[name m] ms IH]; simpl; intros e.
  - exists []. now rewrite app_nil_r.
  - destruct (IH (Metric_attach m e name)) as [extra2 [E2 H2]].
    destruct (Metric_attach_entries m e name) as [extra1 [E1 H1]].
    exists (extra1 ++ extra2). rewrite E2, E1, <- app_assoc.
    split; [reflexivity|]. rewrite forallb_app. now rewrite H1, H2.
Qed.

Lemma metric_entries_hold_no_tracker l :
  forallb is_metric_entry l = true -> filter is_tracker_entry l = [].
Proof.
  induction l as [|[ev0 cb] l IH]; simpl; intros H; [reflexivity|].
  apply andb_prop in H as [H0 H].
  destruct ev0, cb; try discriminate; now apply IH.
Qed.

Lemma handler_entries_hold_no_tracker hs :
  filter is_tracker_entry (flat_map handler_entries hs) = [].
Proof.
  induction hs as [|h hs IH]; simpl; [reflexivity|].
  rewrite filter_app, IH, app_nil_r. unfold handler_entries.
  induction (registrations h) as [|r rs IHr]; simpl; [reflexivity|].
  exact IHr.
Qed.

(** X8: the constructor registers its best-metric callback exactly once,
    on [EPOCH_COMPLETED], when a key metric is given, and not at all
    otherwise: neither attaching the metrics nor attaching the handlers
    adds or removes an occurrence of it, on any event. *)
Theorem best_metric_callback_registered_once
  it dev me amp dl pb km am hs self :
  snd (__init__ it dev me amp dl pb km am hs) = inr self ->
  filter is_tracker_entry (event_handlers (engine self))
  = (if is_None km then []
     else [(EPOCH_COMPLETED, post_epoch_process_cb)]).
Proof.
  intros H. apply init_inv in H as [_ ->].
  unfold built. cbn [engine].
  match goal with
  | |- context [fold_left _ (elements hs) ?e1] =>
      destruct (attach_handler_list_table (elements hs) e1) as [-> _]
  end.
  rewrite filter_app, handler_entries_hold_no_tracker, app_nil_r.
  destruct (is_None km); [reflexivity|].
  unfold with_metrics, Engine_on. cbn [event_handlers].
  match goal with
  | |- context [fold_left _ ?ms ?e] =>
      destruct (attach_metric_set_entries ms e) as [extra [-> Hextra]]
  end.
  cbn [event_handlers with_state app].
  rewrite filter_app, (metric_entries_hold_no_tracker extra Hextra).
  reflexivity.
Qed.

Lemma best_metric_callback_registered_once_witness :
  filter is_tracker_entry
    (event_handlers
       (engine (built counting_step cpu (VInt 2) (VBool false) three_batches
                  identity_batch (ODict [("mean_dice", mean_dice)])
                  (ODict [("accuracy", accuracy)])
                  (OList [stats_handler; timer_handler]))))
  = [(EPOCH_COMPLETED, post_epoch_process_cb)].
Proof.
  apply (best_metric_callback_registered_once counting_step cpu (VInt 2)
           (VBool false) three_batches identity_batch
           (ODict [("mean_dice", mean_dice)])
           (ODict [("accuracy", accuracy)])
           (OList [stats_handler; timer_handler]) _ eq_refl).
Defined.

Lemma dict_update_keeps_first {V} (k : string) (v : V) d other :
  exists v' d', dict_update ((k, v) :: d) other = (k, v') :: d'.
Proof.
  unfold dict_update. revert v d.
  induction other as [|[k0 v0] other IH]; simpl; intros v d.
  - now exists v, d.
  - destruct (String.eqb k0 k) eqn:E.
    + apply String.eqb_eq in E. subst k0. apply IH.
    + apply IH.
Qed.

(** X9: in a workflow built with a key metric, the first callback of
    [EPOCH_COMPLETED] is the reduction stored under the key metric name:
    the first key of [key_metric] keeps the first place in the metric set
    even when [additional_metrics] replaces its metric object. *)
Theorem key_metric_is_reduced_first it dev me amp dl pb km am hs self :
  is_None km = false ->
  snd (__init__ it dev me amp dl pb km am hs) = inr self ->
  exists m rest,
    handlers_for EPOCH_COMPLETED (event_handlers (engine self))
    = metric_completed m (first_key km) :: rest
    /\ key_metric_name (state (engine self)) = Some (first_key km)
    /\ dict_get (first_key km) (working_metrics km am) = Some m.
Proof.
  intros HN H. apply init_inv in H as [Hok ->].
  unfold init_ok, metrics_ok in Hok. rewrite HN in Hok. simpl in Hok.
  apply andb_prop in Hok as [Hok _]. apply andb_prop in Hok as [_ Hms].
  destruct km as [v|m0|h0|items|items|items]; try discriminate.
  destruct items as [|[name m] rest]; [discriminate|].
  rewrite built_table, built_state. cbn [is_None first_key dict_items].
  unfold working_metrics. cbn [dict_items].
  destruct (dict_update_keeps_first name m rest (dict_items am))
    as [m' [d' ->]].
  exists m'. eexists. split; [reflexivity|]. split; [reflexivity|].
  simpl. now rewrite String.eqb_refl.
Qed.

Lemma key_metric_is_reduced_first_witness :
  exists m rest,
    handlers_for EPOCH_COMPLETED
      (event_handlers
         (engine (built counting_step cpu (VInt 2) (VBool false)
                    three_batches identity_batch
                    (ODict [("accuracy", accuracy)])
                    (ODict [("mean_dice", mean_dice);
                            ("accuracy", other_accuracy)])
                    (OVal VNone))))
    = metric_completed m "accuracy" :: rest
    /\ dict_get "accuracy"
         (working_metrics (ODict [("accuracy", accuracy)])
            (ODict [("mean_dice", mean_dice);
                    ("accuracy", other_accuracy)]))
       = Some m.
Proof.
  destruct (key_metric_is_reduced_first counting_step cpu (VInt 2)
              (VBool false) three_batches identity_batch
              (ODict [("accuracy", accuracy)])
              (ODict [("mean_dice", mean_dice);
                      ("accuracy", other_accuracy)])
              (OVal VNone) _ eq_refl eq_refl)
    as [m [rest [Ht [_ Hg]]]].
  exists m, rest. split; assumption.
Defined.

(** ** What a run preserves *)

Lemma and_then_inv (P : World -> Prop) o k :
  P (final o) ->
  (forall w, P w -> P (final (k w))) ->
  P (final (and_then o k)).
Proof.
  intros Ho Hk. destruct o as [w|err w]; simpl in *; [now apply Hk|exact Ho].
Qed.

(** A property of the state that every step of a run preserves holds when
    the run ends, however it ends. *)
Section RunInvariant.
Variable Inv : State -> Prop.
Variable e : Engine.
Hypothesis Inv_batch : forall b s, Inv s -> Inv (set_batch b s).
Hypothesis Inv_epoch : forall k s, Inv s -> Inv (set_epoch k s).
Hypothesis Inv_epoch_length :
  forall n s, Inv s -> Inv (set_epoch_length n s).
Hypothesis Inv_process :
  forall s b s' out,
    Inv s -> process e s b = inr (s', out) -> Inv (set_output out s').
Hypothesis Inv_call :
  forall ev cb,
    In (ev, cb) (event_handlers e) ->
    forall w, Inv (wstate w) -> Inv (wstate (final (call cb w))).

Lemma call_all_inv cbs : forall w,
  (forall cb, In cb cbs -> exists ev, In (ev, cb) (event_handlers e)) ->
  Inv (wstate w) -> Inv (wstate (final (call_all cbs w))).
Proof.
  induction cbs as [|cb cbs IH]; simpl; intros w Hin Hw; [exact Hw|].
  apply (and_then_inv (fun w => Inv (wstate w))).
  - destruct (Hin cb (or_introl eq_refl)) as [ev Hev].
    now apply (Inv_call ev cb Hev).
  - intros w1 Hw1. apply IH; [|exact Hw1].
    intros cb' Hcb'. apply Hin. now right.
Qed.

Lemma fire_event_inv ev w :
  Inv (wstate w) -> Inv (wstate (final (fire_event e ev w))).
Proof.
  intros Hw. unfold fire_event. apply call_all_inv; [|exact Hw].
  intros cb Hcb. exists ev. now apply handlers_for_In.
Qed.

Lemma run_iteration_inv b w :
  Inv (wstate w) -> Inv (wstate (final (run_iteration e b w))).
Proof.
  intros Hw. unfold run_iteration.
  apply (and_then_inv (fun w => Inv (wstate w))).
  - apply fire_event_inv. simpl. now apply Inv_batch.
  - intros w1 Hw1.
    destruct (process e (wstate w1) b) as [err|[s out]] eqn:E;
      [exact Hw1|].
    apply fire_event_inv. simpl. exact (Inv_process _ _ _ _ Hw1 E).
Qed.

Lemma run_iterations_inv bs : forall w,
  Inv (wstate w) -> Inv (wstate (final (run_iterations e bs w))).
Proof.
  induction bs as [|b bs IH]; simpl; intros w Hw; [exact Hw|].
  apply (and_then_inv (fun w => Inv (wstate w)));
    [now apply run_iteration_inv|exact IH].
Qed.

Lemma run_epoch_inv data k w :
  Inv (wstate w) -> Inv (wstate (final (run_epoch e data k w))).
Proof.
  intros Hw. unfold run_epoch.
  apply (and_then_inv (fun w => Inv (wstate w))).
  - apply fire_event_inv. simpl. now apply Inv_epoch.
  - intros w1 Hw1. apply (and_then_inv (fun w => Inv (wstate w))).
    + now apply run_iterations_inv.
    + intros w2. apply fire_event_inv.
Qed.

Lemma run_epochs_inv data n : forall k w,
  Inv (wstate w) -> Inv (wstate (final (run_epochs e data n k w))).
Proof.
  induction n as [|n IH]; simpl; intros k w Hw; [exact Hw|].
  apply (and_then_inv (fun w => Inv (wstate w)));
    [now apply run_epoch_inv|apply IH].
Qed.

Lemma handle_exception_inv o :
  Inv (wstate (final o)) -> Inv (wstate (final (handle_exception e o))).
Proof.
  destruct o as [w|err w]; simpl; intros Hw; [exact Hw|].
  pose proof (fire_event_inv EXCEPTION_RAISED w Hw) as H.
  destruct (fire_event e EXCEPTION_RAISED w); exact H.
Qed.

Lemma Engine_run_inv data n w :
  Inv (wstate w) -> Inv (wstate (final (Engine_run e data n w))).
Proof.
  intros Hw. unfold Engine_run. apply handle_exception_inv.
  apply (and_then_inv (fun w => Inv (wstate w))).
  - apply fire_event_inv. simpl. now apply Inv_epoch_length.
  - intros w1 Hw1. apply (and_then_inv (fun w => Inv (wstate w))).
    + now apply run_epochs_inv.
    + intros w2. apply fire_event_inv.
Qed.
End RunInvariant.

Lemma Qlt_bool_inv x y : Qlt_bool x y = true -> (x < y)%Q.
Proof.
  unfold Qlt_bool. intros H. apply negb_true_iff in H.
  apply Qnot_le_lt. intros Hle. apply Qle_bool_iff in Hle. congruence.
Qed.

Lemma py_gt_number_inv v b y :
  py_gt v b = inr true -> as_number b = Some y ->
  exists x, as_number v = Some x /\ (y < x)%Q.
Proof.
  unfold py_gt. intros H Hb. rewrite Hb in H.
  destruct (as_number v) as [x|] eqn:Hx.
  - exists x. split; [reflexivity|]. apply Qlt_bool_inv.
    now injection H.
  - destruct v; try discriminate; destruct b; discriminate.
Qed.

(** X10: over a whole run the best metric never decreases.  If the handlers
    and the iteration operation leave [state.best_metric] alone and it is a
    number when [_run] is called, then it is a number, not below that one,
    when [_run] ends, whether the run completes or raises. *)
Theorem best_metric_never_decreases_over_a_run self w y0 :
  process_keeps_best_metric (process (engine self)) ->
  (forall ev f,
     In (ev, handler_cb f) (event_handlers (engine self)) ->
     keeps_best_metric f) ->
  as_number (best_metric (wstate w)) = Some y0 ->
  exists y,
    as_number (best_metric (wstate (final (_run self w)))) = Some y
    /\ (y0 <= y)%Q.
Proof.
  intros Hp Hh Hy0.
  set (Inv := fun s : State =>
                exists y, as_number (best_metric s) = Some y /\ (y0 <= y)%Q).
  assert (H0 : Inv (set_iteration 0 (wstate w))).
  { exists y0. split; [exact Hy0|apply Qle_refl]. }
  unfold _run.
  destruct (val_len (data_loader self)) as [err|n]; [exact H0|].
  apply (Engine_run_inv Inv (engine self)); try (intros; assumption).
  - intros s b s' out [y [Hy Hle]] E. exists y.
    simpl. rewrite (Hp _ _ _ _ E). now split.
  - intros ev cb Hin w1 [y [Hy Hle]].
    destruct cb as [m|m name| |f]; simpl.
    + exists y. now split.
    + exists y. now split.
    + unfold post_epoch_process.
      destruct (key_metric_name (wstate w1)) as [name|];
        [|exists y; now split].
      destruct (dict_get name (metrics (wstate w1))) as [v|];
        [|exists y; now split].
      destruct (py_gt v (best_metric (wstate w1))) as [err|[|]] eqn:Hgt;
        try (exists y; now split).
      destruct (py_gt_number_inv _ _ _ Hgt Hy) as [x [Hx Hlt]].
      exists x. simpl. split; [exact Hx|].
      eapply Qle_trans; [exact Hle|now apply Qlt_le_weak].
    + destruct (f (wstate w1)) as [err|s'] eqn:E; simpl;
        [exists y; now split|].
      exists y. rewrite (Hh ev f Hin _ _ E). now split.
Qed.

Lemma best_metric_never_decreases_over_a_run_witness :
  exists y,
    as_number
      (best_metric (wstate (final (_run plain_workflow
                                     (fresh plain_workflow))))) = Some y
    /\ (inject_Z (-1) <= y)%Q.
Proof.
  apply (best_metric_never_decreases_over_a_run plain_workflow
           (fresh plain_workflow) (inject_Z (-1))).
  - intros s b s' out [= <- _]. reflexivity.
  - intros ev f Hin. simpl in Hin.
    repeat (destruct Hin as [Hin|Hin]; [try discriminate|]);
      try contradiction.
    injection Hin as _ <-. intros s s' [= <-]. reflexivity.
  - reflexivity.
Defined.

(** X11: a key metric that never rises above [-1] is never recorded.  If
    every attached metric computes numbers not above [-1], the handlers and
    the iteration operation leave the metric values and the best-metric
    bookkeeping alone, and [_run] is called with the bookkeeping as the
    constructor set it ([best_metric = -1], [best_metric_epoch = -1]), then
    both are still [-1] when [_run] ends: the comparison is strict, so the
    initial [-1] is never beaten. *)
Theorem metric_never_above_initial_best_is_never_recorded self w :
  process_keeps_bookkeeping (process (engine self)) ->
  (forall ev f,
     In (ev, handler_cb f) (event_handlers (engine self)) ->
     keeps_bookkeeping f) ->
  (forall ev m name,
     In (ev, metric_completed m name) (event_handlers (engine self)) ->
     never_above (inject_Z (-1)) m) ->
  best_metric (wstate w) = VInt (-1) ->
  best_metric_epoch (wstate w) = -1 ->
  metrics_not_above (inject_Z (-1)) (wstate w) ->
  best_metric (wstate (final (_run self w))) = VInt (-1)
  /\ best_metric_epoch (wstate (final (_run self w))) = -1.
Proof.
  intros Hp Hh Hm Hb He Hms.
  set (Inv := fun s : State =>
                best_metric s = VInt (-1)
                /\ best_metric_epoch s = -1
                /\ metrics_not_above (inject_Z (-1)) s).
  assert (H0 : Inv (set_iteration 0 (wstate w))) by (repeat split; assumption).
  assert (Hend : Inv (wstate (final (_run self w)))).
  { unfold _run.
    destruct (val_len (data_loader self)) as [err|n]; [exact H0|].
    apply (Engine_run_inv Inv (engine self)); try (intros; assumption).
    - intros s b s' out [Hb1 [He1 Hms1]] E.
      destruct (Hp _ _ _ _ E) as [Eb [Ee Em]].
      unfold Inv, metrics_not_above. simpl.
      rewrite Eb, Ee, Em. repeat split; assumption.
    - intros ev cb Hin w1 [Hb1 [He1 Hms1]].
      destruct cb as [m|m name| |f]; simpl.
      + repeat split; assumption.
      + split; [exact Hb1|]. split; [exact He1|].
        intros name' v. simpl.
        destruct (String.eqb_spec name' name) as [->|Hne].
        * rewrite dict_get_set_same. intros [= <-].
          apply (Hm ev m name Hin).
        * rewrite dict_get_set_other by assumption. apply Hms1.
      + unfold post_epoch_process.
        destruct (key_metric_name (wstate w1)) as [name|];
          [|repeat split; assumption].
        destruct (dict_get name (metrics (wstate w1))) as [v|] eqn:Hv;
          [|repeat split; assumption].
        destruct (Hms1 name v Hv) as [x [Hx Hle]].
        rewrite Hb1.
        rewrite (py_gt_numbers v (VInt (-1)) x (inject_Z (-1)) Hx eq_refl).
        unfold ret. rewrite (Qlt_bool_false _ _ Hle).
        repeat split; assumption.
      + destruct (f (wstate w1)) as [err|s'] eqn:E; simpl;
          [repeat split; assumption|].
        destruct (Hh ev f Hin _ _ E) as [Eb [Ee Em]].
        unfold Inv, metrics_not_above. rewrite Eb, Ee, Em.
        repeat split; assumption. }
  destruct Hend as [Hb' [He' _]]. now split.
Qed.

Lemma metric_never_above_initial_best_is_never_recorded_witness :
  best_metric (wstate (final (_run loss_workflow (fresh loss_workflow))))
  = VInt (-1)
  /\ best_metric_epoch
       (wstate (final (_run loss_workflow (fresh loss_workflow)))) = -1.
Proof.
  apply (metric_never_above_initial_best_is_never_recorded loss_workflow
           (fresh loss_workflow)).
  - intros s b s' out [= <- _]. repeat split; reflexivity.
  - intros ev f Hin. simpl in Hin.
    repeat (destruct Hin as [Hin|Hin]; [try discriminate|]);
      try contradiction.
    injection Hin as _ <-. intros s s' [= <-]. repeat split; reflexivity.
  - intros ev m name Hin. simpl in Hin.
    repeat (destruct Hin as [Hin|Hin]; [try discriminate|]);
      try contradiction.
    injection Hin as _ <- _. intros outs.
    exists (inject_Z (- 1 - Z.of_nat (List.length outs))).
    split; [reflexivity|].
    unfold Qle, inject_Z. cbn [Qnum Qden]. lia.
  - reflexivity.
  - reflexivity.
  - intros name v Hv. discriminate.
Defined.

(** ** One firing of [EPOCH_COMPLETED] *)

Lemma reduce_all_get ms acc :
  dict_wf ms ->
  forall d k,
    dict_get k (reduce_all ms acc d)
    = match dict_get k ms with
      | Some m => Some (compute m (acc_get (metric_id m) acc))
      | None => dict_get k d
      end.
Proof.
  unfold reduce_all, dict_wf.
  induction ms as [|[k0 m0] ms IH]; simpl; intros Hwf d k; [reflexivity|].
  inversion Hwf as [|? ? Hnotin Hms]; subst.
  rewrite IH by assumption.
  destruct (String.eqb k k0) eqn:E.
  - apply String.eqb_eq in E. subst k0.
    rewrite (dict_get_None_notin ms k Hnotin). apply dict_get_set_same.
  - destruct (dict_get k ms); [reflexivity|].
    apply dict_get_set_other. intros ->. now rewrite String.eqb_refl in E.
Qed.

Lemma call_all_handlers_keep cbs : forall w,
  (forall cb, In cb cbs -> exists f, cb = handler_cb f /\ keeps_bookkeeping f) ->
  best_metric (wstate (final (call_all cbs w))) = best_metric (wstate w)
  /\ best_metric_epoch (wstate (final (call_all cbs w)))
     = best_metric_epoch (wstate w)
  /\ metrics (wstate (final (call_all cbs w))) = metrics (wstate w).
Proof.
  induction cbs as [|cb cbs IH]; simpl; intros w Hcbs;
    [repeat split; reflexivity|].
  destruct (Hcbs cb (or_introl eq_refl)) as [f [-> Hf]]. simpl.
  destruct (f (wstate w)) as [err|s'] eqn:E; simpl;
    [repeat split; reflexivity|].
  destruct (IH (put_state s' w)) as [Hb [He Hm]].
  { intros cb' Hin. apply Hcbs. now right. }
  destruct (Hf _ _ E) as [Eb [Ee Em]].
  rewrite Hb, He, Hm. simpl. repeat split; assumption.
Qed.

(** What the reductions and the best-metric callback of a built workflow
    make of a world, in one firing of [EPOCH_COMPLETED]. *)
Lemma epoch_completed_built_in_part
  it dev me amp dl pb km am hs w m x y :
  is_None km = false ->
  init_ok dev me dl km am hs = true ->
  dict_wf (dict_items km) ->
  key_metric_name (wstate w) = Some (first_key km) ->
  dict_get (first_key km) (working_metrics km am) = Some m ->
  as_number (compute m (acc_get (metric_id m) (accumulated w))) = Some x ->
  as_number (best_metric (wstate w)) = Some y ->
  exists w1 w',
    fire_event (engine (built it dev me amp dl pb km am hs))
      EPOCH_COMPLETED w
    = call_all
        (handlers_for EPOCH_COMPLETED
           (flat_map handler_entries (elements hs))) w'
    /\ post_epoch_process w1 = Normal w'
    /\ key_metric_name (wstate w1) = Some (first_key km)
    /\ dict_get (first_key km) (metrics (wstate w1))
       = Some (compute m (acc_get (metric_id m) (accumulated w)))
    /\ best_metric (wstate w1) = best_metric (wstate w)
    /\ best_metric_epoch (wstate w1) = best_metric_epoch (wstate w)
    /\ epoch (wstate w1) = epoch (wstate w)
    /\ metrics (wstate w') = metrics (wstate w1).
Proof.
  intros HN Hok Hwf Hname Hm Hx Hy.
  unfold fire_event. rewrite built_table, HN, <- app_assoc.
  rewrite call_all_app, call_all_reductions. cbn [and_then].
  set (w1 := put_state _ _).
  assert (Hget : dict_get (first_key km) (metrics (wstate w1))
                 = Some (compute m (acc_get (metric_id m) (accumulated w)))).
  { unfold w1. cbn [wstate put_state metrics set_metrics log_fired
                    accumulated].
    rewrite reduce_all_get, Hm; [reflexivity|].
    unfold working_metrics. now apply dict_wf_update. }
  assert (Hname1 : key_metric_name (wstate w1) = Some (first_key km))
    by exact Hname.
  assert (Hy1 : as_number (best_metric (wstate w1)) = Some y) by exact Hy.
  destruct (post_epoch_process_on_numbers w1 (first_key km) _ x y
              Hname1 Hget Hx Hy1) as [Hup Hkeep].
  cbn [app call_all call].
  destruct (Qlt_le_dec y x) as [Hlt|Hle].
  - destruct (Hup Hlt) as [w' [E [_ [_ [_ Ew']]]]].
    exists w1, w'. rewrite E. cbn [and_then].
    repeat split; try reflexivity; try assumption.
    now rewrite Ew'.
  - destruct (Hkeep Hle) as [E _].
    exists w1, w1. rewrite E. cbn [and_then].
    repeat split; try reflexivity; assumption.
Qed.

(** C1: in a workflow built with a key metric, each firing of
    [EPOCH_COMPLETED] (the engine fires it at the end of every epoch of a
    run) first stores the freshly computed value of the key metric in
    [state.metrics] and then compares it with [best_metric].  If the value
    is strictly greater, [best_metric] becomes that value and
    [best_metric_epoch] the current epoch; if it is equal or lower, both
    are left unchanged.  This is how the world stands when the callbacks of
    the handlers start, and, if those leave the bookkeeping alone, when the
    firing ends. *)
Theorem best_metric_tracked_at_each_epoch_completed
  it dev me amp dl pb km am hs self w m x y :
  is_None km = false ->
  snd (__init__ it dev me amp dl pb km am hs) = inr self ->
  dict_wf (dict_items km) ->
  key_metric_name (wstate w) = key_metric_name (state (engine self)) ->
  dict_get (first_key km) (working_metrics km am) = Some m ->
  as_number (compute m (acc_get (metric_id m) (accumulated w))) = Some x ->
  as_number (best_metric (wstate w)) = Some y ->
  let value := compute m (acc_get (metric_id m) (accumulated w)) in
  let user :=
    handlers_for EPOCH_COMPLETED (flat_map handler_entries (elements hs)) in
  exists w',
    fire_event (engine self) EPOCH_COMPLETED w = call_all user w'
    /\ dict_get (first_key km) (metrics (wstate w')) = Some value
    /\ ((y < x)%Q ->
        best_metric (wstate w') = value
        /\ best_metric_epoch (wstate w') = epoch (wstate w))
    /\ ((x <= y)%Q ->
        best_metric (wstate w') = best_metric (wstate w)
        /\ best_metric_epoch (wstate w') = best_metric_epoch (wstate w))
    /\ ((forall f, In (handler_cb f) user -> keeps_bookkeeping f) ->
        let w_end := final (fire_event (engine self) EPOCH_COMPLETED w) in
        dict_get (first_key km) (metrics (wstate w_end)) = Some value
        /\ ((y < x)%Q ->
            best_metric (wstate w_end) = value
            /\ best_metric_epoch (wstate w_end) = epoch (wstate w))
        /\ ((x <= y)%Q ->
            best_metric (wstate w_end) = best_metric (wstate w)
            /\ best_metric_epoch (wstate w_end)
               = best_metric_epoch (wstate w))).
Proof.
  intros HN H Hwf Hname Hm Hx Hy value user. subst value user.
  apply init_inv in H as [Hok ->].
  rewrite built_state, HN in Hname.
  destruct (epoch_completed_built_in_part it dev me amp dl pb km am hs
              w m x y HN Hok Hwf Hname Hm Hx Hy)
    as [w1 [w' [Hfire [Htrack [Hname1 [Hget [Hb1 [He1 [Hep1 Hms]]]]]]]]].
  assert (Hy1 : as_number (best_metric (wstate w1)) = Some y)
    by (rewrite Hb1; exact Hy).
  set (value := compute m (acc_get (metric_id m) (accumulated w))) in *.
  set (user := handlers_for EPOCH_COMPLETED
                 (flat_map handler_entries (elements hs))) in *.
  destruct (post_epoch_process_on_numbers w1 (first_key km) value x y
              Hname1 Hget Hx Hy1) as [Hup Hkeep].
  assert (Hgt : (y < x)%Q ->
                best_metric (wstate w') = value
                /\ best_metric_epoch (wstate w') = epoch (wstate w)).
  { intros Hlt. destruct (Hup Hlt) as [w2 [E [_ [Hb [He _]]]]].
    rewrite Htrack in E. injection E as <-. rewrite <- Hep1. now split. }
  assert (Hle : (x <= y)%Q ->
                best_metric (wstate w') = best_metric (wstate w)
                /\ best_metric_epoch (wstate w')
                   = best_metric_epoch (wstate w)).
  { intros Hcmp. destruct (Hkeep Hcmp) as [E _].
    rewrite Htrack in E. injection E as ->. now split. }
  assert (Hval : dict_get (first_key km) (metrics (wstate w')) = Some value)
    by (rewrite Hms; exact Hget).
  exists w'. split; [exact Hfire|]. split; [exact Hval|].
  split; [exact Hgt|]. split; [exact Hle|].
  intros Huser w_end. subst w_end. rewrite Hfire.
  destruct (call_all_handlers_keep user w') as [Eb [Ee Em]].
  { intros cb Hin. pose proof Hin as Hin'.
    apply handlers_for_In in Hin'.
    apply handler_entries_only_handlers in Hin' as [f ->].
    exists f. split; [reflexivity|]. now apply Huser. }
  rewrite Eb, Ee, Em. split; [exact Hval|]. split; assumption.
Qed.

Lemma best_metric_tracked_at_each_epoch_completed_witness :
  dict_get "mean_dice"
    (metrics
       (wstate
          (final
             (fire_event (engine plain_workflow) EPOCH_COMPLETED
                (mkWorld (state_after_epoch 1 (VInt 0) (VInt (-1)) (-1))
                   [(0%nat, [VInt 10; VInt 20; VInt 30])] [] [])))))
  = Some (VInt 3)
  /\ best_metric
       (wstate
          (final
             (fire_event (engine plain_workflow) EPOCH_COMPLETED
                (mkWorld (state_after_epoch 1 (VInt 0) (VInt (-1)) (-1))
                   [(0%nat, [VInt 10; VInt 20; VInt 30])] [] []))))
     = VInt 3
  /\ best_metric_epoch
       (wstate
          (final
             (fire_event (engine plain_workflow) EPOCH_COMPLETED
                (mkWorld (state_after_epoch 1 (VInt 0) (VInt (-1)) (-1))
                   [(0%nat, [VInt 10; VInt 20; VInt 30])] [] []))))
     = 1.
Proof.
  destruct (best_metric_tracked_at_each_epoch_completed counting_step cpu
              (VInt 2) (VBool false) three_batches identity_batch
              (ODict [("mean_dice", mean_dice)]) (OVal VNone)
              (OList [timer_handler]) plain_workflow
              (mkWorld (state_after_epoch 1 (VInt 0) (VInt (-1)) (-1))
                 [(0%nat, [VInt 10; VInt 20; VInt 30])] [] [])
              mean_dice (inject_Z 3) (inject_Z (-1))
              eq_refl eq_refl
              (NoDup_cons "mean_dice" (fun H : In "mean_dice" [] => H)
                 (NoDup_nil string))
              eq_refl eq_refl eq_refl eq_refl)
    as [w' [_ [_ [_ [_ Hend]]]]].
  destruct Hend as [Hv [Hgt _]].
  - intros f Hin. simpl in Hin. destruct Hin as [Hin|[]].
    injection Hin as <-. intros s s' [= <-]. repeat split; reflexivity.
  - destruct Hgt as [Hb He]; [reflexivity|].
    split; [exact Hv|]. split; [exact Hb|exact He].
Defined.

(** X12: in a workflow built with a key metric, one firing of
    [EPOCH_COMPLETED] first stores under the key metric name the value its
    metric computes from what it has accumulated, then compares that very
    value with [best_metric]: the firing cannot fail with a [KeyError], and
    when the handler callbacks of the event start, [best_metric] and
    [best_metric_epoch] already account for the epoch that just ended. *)
Theorem epoch_completed_tracks_the_fresh_value
  it dev me amp dl pb km am hs self w m x y :
  is_None km = false ->
  snd (__init__ it dev me amp dl pb km am hs) = inr self ->
  dict_wf (dict_items km) ->
  key_metric_name (wstate w) = Some (first_key km) ->
  dict_get (first_key km) (working_metrics km am) = Some m ->
  as_number (compute m (acc_get (metric_id m) (accumulated w))) = Some x ->
  as_number (best_metric (wstate w)) = Some y ->
  let fresh_value := compute m (acc_get (metric_id m) (accumulated w)) in
  exists w',
    fire_event (engine self) EPOCH_COMPLETED w
    = call_all
        (handlers_for EPOCH_COMPLETED
           (flat_map handler_entries (elements hs))) w'
    /\ dict_get (first_key km) (metrics (wstate w')) = Some fresh_value
    /\ best_metric (wstate w')
       = (if Qlt_bool y x then fresh_value else best_metric (wstate w))
    /\ best_metric_epoch (wstate w')
       = (if Qlt_bool y x then epoch (wstate w)
          else best_metric_epoch (wstate w)).
Proof.
  intros HN H Hwf Hname Hm Hx Hy fresh_value.
  apply init_inv in H as [_ ->].
  unfold fire_event. rewrite built_table, HN, <- app_assoc.
  rewrite call_all_app, call_all_reductions. cbn [and_then].
  set (w1 := put_state _ _).
  assert (Hget : dict_get (first_key km) (metrics (wstate w1))
                 = Some fresh_value).
  { unfold w1. cbn [wstate put_state metrics set_metrics log_fired
                    accumulated].
    rewrite reduce_all_get, Hm; [reflexivity|].
    unfold working_metrics. now apply dict_wf_update. }
  assert (Htrack :
            post_epoch_process w1
            = Normal (if Qlt_bool y x
                      then put_state
                             (set_best_metric_epoch (epoch (wstate w1))
                                (set_best_metric fresh_value (wstate w1)))
                             (print
                                (GotNewBestMetric (first_key km) fresh_value)
                                w1)
                      else w1)).
  { unfold post_epoch_process.
    replace (key_metric_name (wstate w1)) with (Some (first_key km))
      by (symmetry; exact Hname).
    rewrite Hget.
    assert (Hgt : py_gt fresh_value (best_metric (wstate w1))
                  = inr (Qlt_bool y x))
      by (apply py_gt_numbers; [exact Hx|exact Hy]).
    rewrite Hgt.
    destruct (Qlt_bool y x); reflexivity. }
  cbn [app call_all call]. rewrite Htrack. cbn [and_then].
  eexists. split; [reflexivity|].
  destruct (Qlt_bool y x); repeat split; try reflexivity; exact Hget.
Qed.

Lemma epoch_completed_tracks_the_fresh_value_witness :
  exists w',
    fire_event (engine plain_workflow) EPOCH_COMPLETED
      (mkWorld (state_after_epoch 1 (VInt 0) (VInt (-1)) (-1))
         [(0%nat, [VInt 10; VInt 20; VInt 30])] [] [])
    = call_all
        (handlers_for EPOCH_COMPLETED
           (flat_map handler_entries [timer_handler])) w'
    /\ dict_get "mean_dice" (metrics (wstate w')) = Some (VInt 3)
    /\ best_metric (wstate w') = VInt 3
    /\ best_metric_epoch (wstate w') = 1.
Proof.
  destruct (epoch_completed_tracks_the_fresh_value counting_step cpu
              (VInt 2) (VBool false) three_batches identity_batch
              (ODict [("mean_dice", mean_dice)]) (OVal VNone)
              (OList [timer_handler]) plain_workflow
              (mkWorld (state_after_epoch 1 (VInt 0) (VInt (-1)) (-1))
                 [(0%nat, [VInt 10; VInt 20; VInt 30])] [] [])
              mean_dice (inject_Z 3) (inject_Z (-1))
              eq_refl eq_refl
              (NoDup_cons "mean_dice" (fun H : In "mean_dice" [] => H)
                 (NoDup_nil string))
              eq_refl eq_refl eq_refl eq_refl)
    as [w' [E [Hg [Hb He]]]].
  exists w'. repeat split; assumption.
Defined.
